(** * A shallow embedding of the Cosmos query agent, its executor, the
      Playwright agent executor and the MCP handshake probe.

    Python [str] values are modelled by [string], read as sequences of code
    points below 256; the functions of [PyStr] are Python's on that range.
    Awaited calls are sequential, so [await] is plain sequencing.  Only
    [Exception] subclasses are modelled (what [except Exception] catches).
    Logging and printing have no effect on any value modelled here and are
    left out. *)

From Stdlib Require Import Ascii.
From stdpp Require Import gmap strings list pretty.

Set Warnings "-register-all".

Local Open Scope Z_scope.

(** ** Python strings *)

Module PyStr.

(** The characters that the sources build with an escape or that cannot be
    written in a literal here. *)
Definition nl : string := String (ascii_of_nat 10) "".
Definition dquote : string := String (ascii_of_nat 34) "".

Definition code (c : ascii) : N := N_of_ascii c.

Definition in_range (lo hi : N) (c : ascii) : bool :=
  ((lo <=? code c) && (code c <=? hi))%N.

(** [str.lower], one character: A-Z and the cased letters of the
    U+00C0..U+00DE block (U+00D7 is the multiplication sign). *)
Definition lower_char (c : ascii) : ascii :=
  if in_range 65 90 c || (in_range 192 222 c && negb (code c =? 215)%N)
  then ascii_of_N (code c + 32)
  else c.

Fixpoint lower (s : string) : string :=
  match s with
  | EmptyString => EmptyString
  | String c t => String (lower_char c) (lower t)
  end.

(** [s.startswith(p)] *)
Fixpoint startswith (p s : string) : bool :=
  match p, s with
  | EmptyString, _ => true
  | String a p', String b s' => bool_decide (a = b) && startswith p' s'
  | String _ _, EmptyString => false
  end.

(** [needle in hay] on two strings. *)
Fixpoint contains (needle hay : string) : bool :=
  match hay with
  | EmptyString => startswith needle EmptyString
  | String _ t => startswith needle hay || contains needle t
  end.

(** [any(word in s for word in words)] *)
Definition any_in (words : list string) (s : string) : bool :=
  existsb (fun w => contains w s) words.

(** [str.isspace] on one character. *)
Definition is_space (c : ascii) : bool :=
  in_range 9 13 c || in_range 28 32 c
  || (code c =? 133)%N || (code c =? 160)%N.

(** The characters matched by [\d]. *)
Definition is_digit (c : ascii) : bool := in_range 48 57 c.

Definition flush (cur : option string) : list string :=
  match cur with
  | Some w => [String.rev w]
  | None => []
  end.

Definition push (c : ascii) (cur : option string) : option string :=
  Some (String c (default EmptyString cur)).

(** Maximal runs of the characters satisfying [keep], left to right;
    [cur] is the run being read, reversed. *)
Fixpoint runs_go (keep : ascii -> bool) (cur : option string) (s : string)
  : list string :=
  match s with
  | EmptyString => flush cur
  | String c t =>
      if keep c then runs_go keep (push c cur) t
      else flush cur ++ runs_go keep None t
  end.

(** [s.split()] *)
Definition split (s : string) : list string :=
  runs_go (fun c => negb (is_space c)) None s.

(** [re.findall(r'\d+', s)] *)
Definition findall_digits (s : string) : list string :=
  runs_go is_digit None s.

(** [s.split(sep)] for a one-character separator: the pieces between
    the separators, empty ones included. *)
Fixpoint split_on_go (sep : ascii) (cur : string) (s : string) : list string :=
  match s with
  | EmptyString => [String.rev cur]
  | String c t =>
      if bool_decide (c = sep) then String.rev cur :: split_on_go sep EmptyString t
      else split_on_go sep (String c cur) t
  end.

Definition split_on (sep : ascii) (s : string) : list string :=
  split_on_go sep EmptyString s.

(** [s[n:]] *)
Fixpoint drop (n : nat) (s : string) : string :=
  match n, s with
  | O, _ => s
  | S n', String _ t => drop n' t
  | S _, EmptyString => EmptyString
  end.

(** The value of a run of decimal digits, most significant first. *)
Definition digit_value (c : ascii) : Z := Z.of_N (code c) - 48.

Fixpoint digits_value (acc : Z) (s : string) : Z :=
  match s with
  | EmptyString => acc
  | String c t => digits_value (10 * acc + digit_value c) t
  end.

(** [s.replace(old, new)] for a non-empty [old]: occurrences are replaced
    left to right without overlap.  [skip] counts the characters of an
    occurrence still to be dropped. *)
Fixpoint replace_go (old new : string) (skip : nat) (s : string) : string :=
  match s with
  | EmptyString => EmptyString
  | String c t =>
      match skip with
      | S k => replace_go old new k t
      | O =>
          if startswith old s
          then new +:+ replace_go old new (String.length old - 1) t
          else String c (replace_go old new O t)
      end
  end.

Definition replace (old new s : string) : string := replace_go old new O s.

End PyStr.

(** ** Exceptions and effects *)

(** An exception: the name of its class and [str(e)]. *)
Record exn := Exn { exn_class : string; exn_str : string }.

Inductive result (A : Type) : Type :=
| Ok (a : A)
| Raise (e : exn).
Arguments Ok {A} a.
Arguments Raise {A} e.

(** Expressions that may raise are sequenced left to right: [x ← e; rest]
    stops at the first exception. *)
#[global] Instance result_ret : MRet result := @Ok.
#[global] Instance result_bind : MBind result := fun A B k r =>
  match r with
  | Ok a => k a
  | Raise e => Raise e
  end.

(** Code that reads and writes a store [S] and either returns or raises.
    What was written before a [raise] stays written. *)
Module Eff.

Definition M (S A : Type) : Type := S -> S * result A.

Definition ret {S A} (a : A) : M S A := fun s => (s, Ok a).

Definition raise {S A} (e : exn) : M S A := fun s => (s, Raise e).

Definition bind {S A B} (m : M S A) (k : A -> M S B) : M S B :=
  fun s =>
    match m s with
    | (s', Ok a) => k a s'
    | (s', Raise e) => (s', Raise e)
    end.

(** [try: body  except Exception as e: handler(e)] *)
Definition try_except {S A} (body : M S A) (handler : exn -> M S A) : M S A :=
  fun s =>
    match body s with
    | (s', Ok a) => (s', Ok a)
    | (s', Raise e) => handler e s'
    end.

Definition lift {S A} (r : result A) : M S A := fun s => (s, r).

Definition modify {S} (f : S -> S) : M S unit := fun s => (f s, Ok tt).

Definition gets {S A} (f : S -> A) : M S A := fun s => (s, Ok (f s)).

End Eff.

Declare Scope eff_scope.
Delimit Scope eff_scope with eff.
Notation "x <~ m ;; k" := (Eff.bind m (fun x => k))
  (at level 20, m at level 99, k at level 200, only parsing) : eff_scope.
Notation "m ;;; k" := (Eff.bind m (fun _ => k))
  (at level 100, k at level 200, right associativity, only parsing) : eff_scope.
Local Open Scope eff_scope.

(** ** Python values that JSON decoding produces *)

Inductive pyval : Type :=
| PNone
| PBool (b : bool)
| PInt (n : Z)
| PFloat (shown : string)
| PStr (s : string)
| PList (l : list pyval)
| PDict (d : gmap string pyval).

Module Py.

Definition type_name (v : pyval) : string :=
  match v with
  | PNone => "NoneType"
  | PBool _ => "bool"
  | PInt _ => "int"
  | PFloat _ => "float"
  | PStr _ => "str"
  | PList _ => "list"
  | PDict _ => "dict"
  end.


Definition TypeError (m : string) : exn := Exn "TypeError" m.
Definition AttributeError (m : string) : exn := Exn "AttributeError" m.
Definition IndexError (m : string) : exn := Exn "IndexError" m.
Definition KeyError (m : string) : exn := Exn "KeyError" m.
Definition ValueError (m : string) : exn := Exn "ValueError" m.
Definition UnboundLocalError (m : string) : exn := Exn "UnboundLocalError" m.

Definition not_subscriptable (v : pyval) : exn :=
  TypeError ("'" +:+ type_name v +:+ "' object is not subscriptable").

Definition no_attribute (v : pyval) (attr : string) : exn :=
  AttributeError ("'" +:+ type_name v +:+ "' object has no attribute '" +:+ attr +:+ "'").

(** [k in v] for a string [k]: a key of a dict, an element of a list, a
    substring of a string; the other values are no containers. *)
Definition contains (k : string) (v : pyval) : result bool :=
  match v with
  | PDict d => Ok (bool_decide (is_Some (d !! k)))
  | PList l => Ok (existsb (fun x => match x with PStr s => bool_decide (s = k) | _ => false end) l)
  | PStr s => Ok (PyStr.contains k s)
  | _ => Raise (TypeError ("argument of type '" +:+ type_name v +:+ "' is not iterable"))
  end.

(** [v[k]] for a string [k]. *)
Definition getitem (v : pyval) (k : string) : result pyval :=
  match v with
  | PDict d =>
      match d !! k with
      | Some x => Ok x
      | None => Raise (KeyError ("'" +:+ k +:+ "'"))
      end
  | PList _ => Raise (TypeError "list indices must be integers or slices, not str")
  | PStr _ => Raise (TypeError "string indices must be integers, not 'str'")
  | _ => Raise (not_subscriptable v)
  end.

(** [v[0]].  The keys of a decoded JSON object are strings, so [0] is
    never one of them. *)
Definition getitem0 (v : pyval) : result pyval :=
  match v with
  | PList (x :: _) => Ok x
  | PList [] => Raise (IndexError "list index out of range")
  | PStr (String c _) => Ok (PStr (String c ""))
  | PStr EmptyString => Raise (IndexError "string index out of range")
  | PDict _ => Raise (KeyError "0")
  | _ => Raise (not_subscriptable v)
  end.

(** [v.get(k, dflt)] *)
Definition get (v : pyval) (k : string) (dflt : pyval) : result pyval :=
  match v with
  | PDict d => Ok (default dflt (d !! k))
  | _ => Raise (no_attribute v "get")
  end.

(** [for x in v]: the items the loop visits. *)
Definition iter (v : pyval) : result (list pyval) :=
  match v with
  | PList l => Ok l
  | PDict d => Ok (PStr <$> (map_to_list d).*1)
  | PStr s => Ok ((fun c => PStr (String c "")) <$> Stdlib.Strings.String.list_ascii_of_string s)
  | _ => Raise (TypeError ("'" +:+ type_name v +:+ "' object is not iterable"))
  end.

(** Truth value, as [if v] and [not v] take it. *)
Definition truthy (v : pyval) : bool :=
  match v with
  | PNone => false
  | PBool b => b
  | PInt n => negb (n =? 0)
  | PFloat _ => true
  | PStr s => negb (bool_decide (s = ""))
  | PList l => negb (bool_decide (length l = 0%nat))
  | PDict d => negb (bool_decide (size d = 0%nat))
  end.

End Py.

(** ** The HTTP peer *)

Record response := Response {
  status_code : Z;
  text : string;
  headers : gmap string string;
}.

Inductive request :=
| GET (url : string)
| POST (url : string) (hdrs : gmap string string) (body : pyval).

(** Everything outside the program that its result depends on: what the
    peer answers to a request (or the exception the client raises instead),
    the clock behind [datetime.now().isoformat()], the interpreter's limit
    on the digits [int] converts ([sys.get_int_max_str_digits()], 4300
    unless changed, 0 for no limit), what [str] shows for a value that is
    not a string, and the JSON decoder. *)
Record world := World {
  http_get : string -> result response;
  http_post : string -> gmap string string -> pyval -> result response;
  now_isoformat : string;
  int_max_str_digits : nat;
  repr : pyval -> string;
  json_loads : string -> result pyval;
}.

(** Code that talks to the peer keeps the requests it sent, in order. *)
Abbreviation Net := (Eff.M (list request)).

Definition client_get (w : world) (url : string) : Net response :=
  fun sent => (sent ++ [GET url], http_get w url).

Definition client_post (w : world) (url : string) (hdrs : gmap string string)
    (body : pyval) : Net response :=
  fun sent => (sent ++ [POST url hdrs body], http_post w url hdrs body).

(** [str(v)], also what an f-string puts for [{v}]. *)
Definition py_str (w : world) (v : pyval) : string :=
  match v with
  | PStr s => s
  | _ => repr w v
  end.

(** [int(s)] on a run of decimal digits. *)
Definition py_int (w : world) (s : string) : result Z :=
  if bool_decide (0 < int_max_str_digits w)%nat
     && bool_decide (int_max_str_digits w < String.length s)%nat
  then Raise (Py.ValueError
         ("Exceeds the limit (" +:+ pretty (int_max_str_digits w)
          +:+ " digits) for integer string conversion: value has "
          +:+ pretty (String.length s)
          +:+ " digits; use sys.set_int_max_str_digits() to increase the limit"))
  else Ok (PyStr.digits_value 0 s).

Definition json_headers : gmap string string :=
  {[ "Content-Type" := "application/json";
     "Accept" := "application/json, text/event-stream" ]}.

(** ** cosmos_query_agent/agent.py *)

Module CosmosQueryAgent.

Import PyStr.

(** The attributes of [self] that the methods read. *)
Record t := Make {
  mcp_server_url : string;
  cosmos_database : string;
  cosmos_container : string;
}.

(** [__init__], given [os.getenv]. *)
Definition __init__ (getenv : string -> option string) : t :=
  {| mcp_server_url := default "http://127.0.0.1:8080/mcp" (getenv "MCP_SERVER_URL");
     cosmos_database := default "playwright_logs" (getenv "COSMOS_DATABASE");
     cosmos_container := default "actions" (getenv "COSMOS_CONTAINER") |}.

Section Methods.

Variable w : world.
Variable self : t.

Definition _test_mcp_connection : Net unit :=
  Eff.try_except
    (response <~ client_get w (replace "/mcp" "/health" (mcp_server_url self)) ;;
     if status_code response =? 200 then Eff.ret tt else Eff.ret tt)
    (fun e => Eff.ret tt).

Definition initialize : Net bool :=
  Eff.try_except
    (_test_mcp_connection ;;;
     Eff.ret true)
    (fun e => Eff.ret false).

(** The JSON-RPC request that [_call_mcp_tool] posts. *)
Definition request_data (tool_name : string) (arguments : gmap string pyval) : pyval :=
  PDict {[ "jsonrpc" := PStr "2.0";
           "id" := PStr ("tool_call_" +:+ now_isoformat w);
           "method" := PStr "tools/call";
           "params" := PDict {[ "name" := PStr tool_name;
                                "arguments" := PDict arguments ]} ]}.

(** What the [if response.status_code == 200: ... else: ...] of
    [_call_mcp_tool] returns or raises. *)
Definition response_value (response : response) : result pyval :=
  if status_code response =? 200 then
    result ← json_loads w (text response);
    has_result ← Py.contains "result" result;
    if has_result : bool then
      r ← Py.getitem result "result";
      content ← Py.get r "content" (PList [PDict ∅]);
      first ← Py.getitem0 content;
      Py.get first "text" (PStr "No result")
    else
      has_error ← Py.contains "error" result;
      if has_error : bool then
        err ← Py.getitem result "error";
        message ← Py.get err "message" (PStr "Unknown error");
        Ok (PStr ("Error: " +:+ py_str w message))
      else
        Ok (PStr "Unknown response format")
  else
    Ok (PStr ("HTTP Error " +:+ pretty (status_code response)
              +:+ ": " +:+ text response)).

Definition _call_mcp_tool (tool_name : string)
    (arguments : option (gmap string pyval)) : Net pyval :=
  let arguments := default ∅ arguments in
  Eff.try_except
    (response <~ client_post w (mcp_server_url self) json_headers
                   (request_data tool_name arguments) ;;
     Eff.lift (response_value response))
    (fun e => Eff.ret (PStr ("Error calling tool: " +:+ exn_str e))).

Definition query_cosmos_db (query : string) : Net pyval :=
  _call_mcp_tool "query_cosmos" (Some {[ "query" := PStr query ]}).

Definition list_containers : Net pyval :=
  _call_mcp_tool "list_collections" None.

(** [{"container_name": container_name} if container_name else {}] *)
Definition container_args (container_name : option string) : gmap string pyval :=
  match container_name with
  | Some n => if bool_decide (n = "") then ∅ else {[ "container_name" := PStr n ]}
  | None => ∅
  end.

Definition describe_container (container_name : option string) : Net pyval :=
  _call_mcp_tool "describe_container" (Some (container_args container_name)).

Definition get_sample_documents (container_name : option string) (limit : Z)
  : Net pyval :=
  let args := container_args container_name in
  let args := if bool_decide (limit ≠ 5) then <["limit" := PInt limit]> args else args in
  _call_mcp_tool "get_sample_documents" (Some args).

Definition count_documents (container_name : option string) : Net pyval :=
  _call_mcp_tool "count_documents" (Some (container_args container_name)).

Definition get_partition_key_info (container_name : option string) : Net pyval :=
  _call_mcp_tool "get_partition_key_info" (Some (container_args container_name)).

Definition get_indexing_policy (container_name : option string) : Net pyval :=
  _call_mcp_tool "get_indexing_policy" (Some (container_args container_name)).

Definition find_implied_links (container_name : option string) : Net pyval :=
  _call_mcp_tool "find_implied_links" (Some (container_args container_name)).

(** The keyword lists of [process_query], in the order it tests them. *)
Definition kw_list : list string := ["list"; "show"; "containers"; "collections"; "databases"].
Definition kw_describe : list string := ["describe"; "schema"; "structure"; "fields"].
Definition kw_sample : list string := ["sample"; "example"; "preview"; "show me"].
Definition kw_count : list string := ["count"; "how many"; "number of"].
Definition kw_partition : list string := ["partition"; "partitioning"; "partition key"].
Definition kw_index : list string := ["index"; "indexing"; "policy"].
Definition kw_links : list string := ["relationship"; "links"; "foreign key"; "references"].
Definition kw_time : list string := ["time_agent"; "timeagent"; "time agent"].

(** ['actions' if 'actions' in query_lower else None] *)
Definition actions_if_mentioned (query_lower : string) : option string :=
  if contains "actions" query_lower then Some "actions" else None.

(** The loop over [enumerate(words)] of the describe branch: the word
    after the first [container] that has a successor. *)
Fixpoint word_after_container (words : list string) : option string :=
  match words with
  | [] => None
  | word :: rest =>
      if bool_decide (lower word = "container")
      then match rest with
           | next :: _ => Some next
           | [] => word_after_container rest
           end
      else word_after_container rest
  end.

Definition time_query : string :=
  "SELECT * FROM c WHERE c.agent_name = 'TimeAgent' ORDER BY c._ts DESC".

(** The text of [_handle_general_query] before and after the query.
    Its three pictographs lie above code point 255 and stand here as
    their UTF-8 bytes. *)
Definition help_head : string :=
  "I can help you explore and query the Cosmos DB data using these capabilities:"
  +:+ nl +:+ ""
  +:+ nl +:+ "🔍 **Query Operations:**"
  +:+ nl +:+ "- Run SQL-like queries: " +:+ dquote +:+ "SELECT * FROM c WHERE c.agent_name = 'TimeAgent'" +:+ dquote
  +:+ nl +:+ "- Find time_agent data: " +:+ dquote +:+ "Show me time_agent entries" +:+ dquote
  +:+ nl +:+ ""
  +:+ nl +:+ "📋 **Data Exploration:**"
  +:+ nl +:+ "- List containers: " +:+ dquote +:+ "Show me all containers" +:+ dquote
  +:+ nl +:+ "- Describe schema: " +:+ dquote +:+ "Describe the actions container" +:+ dquote
  +:+ nl +:+ "- Get samples: " +:+ dquote +:+ "Show me sample documents from actions" +:+ dquote
  +:+ nl +:+ "- Count documents: " +:+ dquote +:+ "How many documents are in actions?" +:+ dquote
  +:+ nl +:+ ""
  +:+ nl +:+ "🔧 **Technical Info:**"
  +:+ nl +:+ "- Partition keys: " +:+ dquote +:+ "Show partition key info for actions" +:+ dquote
  +:+ nl +:+ "- Indexing policies: " +:+ dquote +:+ "Show indexing policy" +:+ dquote
  +:+ nl +:+ "- Relationships: " +:+ dquote +:+ "Find relationships in the data" +:+ dquote
  +:+ nl +:+ ""
  +:+ nl +:+ "Your query: " +:+ dquote.

Definition help_tail : string :=
  dquote
  +:+ nl +:+ ""
  +:+ nl +:+ "What would you like to explore? You can ask for any of the above operations or run direct SQL queries.".

Definition _handle_general_query (query : string) : Net pyval :=
  Eff.ret (PStr (help_head +:+ query +:+ help_tail)).

(** [f"{label}\n{result}"] *)
Definition labelled (label : string) (result : pyval) : pyval :=
  PStr (label +:+ nl +:+ py_str w result).

Definition process_query (query : string) : Net pyval :=
  Eff.try_except
    (let query_lower := lower query in
     if any_in kw_list query_lower then
       if contains "container" query_lower || contains "collection" query_lower then
         result <~ list_containers ;;
         Eff.ret (labelled "Available containers in the database:" result)
       else
         (* no branch of the chain is left to run: the function ends
            without a return statement *)
         Eff.ret PNone
     else if any_in kw_describe query_lower then
       let container_name :=
         if contains "actions" query_lower then Some "actions"
         else if contains "container" query_lower then word_after_container (split query)
         else None in
       result <~ describe_container container_name ;;
       Eff.ret (labelled "Container schema information:" result)
     else if any_in kw_sample query_lower then
       let container_name := actions_if_mentioned query_lower in
       let numbers := findall_digits query in
       limit <~ Eff.lift (match numbers with
                          | first :: _ => n ← py_int w first; Ok (Z.min n 10)
                          | [] => Ok 5
                          end) ;;
       result <~ get_sample_documents container_name limit ;;
       Eff.ret (labelled "Sample documents:" result)
     else if any_in kw_count query_lower then
       result <~ count_documents (actions_if_mentioned query_lower) ;;
       Eff.ret (labelled "Document count:" result)
     else if any_in kw_partition query_lower then
       result <~ get_partition_key_info (actions_if_mentioned query_lower) ;;
       Eff.ret (labelled "Partition key information:" result)
     else if any_in kw_index query_lower then
       result <~ get_indexing_policy (actions_if_mentioned query_lower) ;;
       Eff.ret (labelled "Indexing policy:" result)
     else if any_in kw_links query_lower then
       result <~ find_implied_links (actions_if_mentioned query_lower) ;;
       Eff.ret (labelled "Relationship analysis:" result)
     else if contains "select" query_lower || contains "from" query_lower then
       result <~ query_cosmos_db query ;;
       Eff.ret (labelled "Query results:" result)
     else if any_in kw_time query_lower then
       result <~ query_cosmos_db time_query ;;
       Eff.ret (labelled "Time Agent data:" result)
     else
       _handle_general_query query)
    (fun e =>
       Eff.ret (PStr ("Sorry, I encountered an error while processing your query: "
                      +:+ exn_str e))).

End Methods.

End CosmosQueryAgent.


(** ** cosmos_query_agent/agent_executor.py *)

(** The two awaited methods through which the executor uses its agent;
    [A] is whatever the agent keeps between calls. *)
Record agent_api (A : Type) := AgentApi {
  agent_initialize : Eff.M A bool;
  agent_process_query : string -> Eff.M A pyval;
}.
Arguments AgentApi {A}.
Arguments agent_initialize {A}.
Arguments agent_process_query {A}.

(** [CosmosQueryAgent()], the agent the executor creates for itself. *)
Definition cosmos_agent (w : world) (self : CosmosQueryAgent.t) : agent_api (list request) :=
  {| agent_initialize := CosmosQueryAgent.initialize w self;
     agent_process_query := CosmosQueryAgent.process_query w self |}.

(** The executor imports [RequestContext], [EventQueue], [TaskStatus],
    [TaskState], the two event classes and [new_text_artifact] from the
    task-event framework, the same names the Playwright executor imports.
    The framework objects are modelled as the framework has them, which is
    how the Playwright executor uses them: a request context has
    [current_task] and [message] and no attribute [task]; an event queue
    has [enqueue_event] and no attribute [enqueue]; [TaskStatus] is a
    model class built from a state, with no attribute [IN_PROGRESS],
    [COMPLETED] or [FAILED]; the members of [TaskState] are lower-case,
    with none called [RUNNING], [COMPLETED] or [FAILED]; a task has no
    attribute [description]; [new_text_artifact] takes [name],
    [description] and [text].  Reading a name an object does not have
    raises AttributeError, and a keyword a function does not take raises
    TypeError. *)
Module CosmosQueryAgentExecutor.

(** The names the code writes after [TaskStatus.] and [TaskState.]. *)
Module TaskStatus.
Inductive t := IN_PROGRESS | COMPLETED | FAILED.
End TaskStatus.

Module TaskState.
Inductive t := RUNNING | COMPLETED | FAILED.
End TaskState.

Record Task := { id : string; context_id : string }.

Record RequestContext := { current_task : option Task; message : string }.

Record Artifact := { artifact_task_id : string; content : pyval; title : string }.

(** The events as the code writes them. *)
Inductive Event :=
| TaskStatusUpdateEvent (task_id : string) (status : TaskStatus.t)
    (state : TaskState.t) (message : string)
| TaskArtifactUpdateEvent (task_id : string) (artifact : Artifact).

(** [request_context.task] *)
Definition no_task_attribute : exn :=
  Py.AttributeError "'RequestContext' object has no attribute 'task'".

Definition context_task (request_context : RequestContext) : result Task :=
  Raise no_task_attribute.

(** [task.description] *)
Definition task_description (task : Task) : result string :=
  Raise (Py.AttributeError "'Task' object has no attribute 'description'").

(** [TaskStatus.NAME] and [TaskState.NAME] *)
Definition TaskStatus_attribute (name : TaskStatus.t) : result TaskStatus.t :=
  Raise (Py.AttributeError
           match name with
           | TaskStatus.IN_PROGRESS => "IN_PROGRESS"
           | TaskStatus.COMPLETED => "COMPLETED"
           | TaskStatus.FAILED => "FAILED"
           end).

Definition TaskState_attribute (name : TaskState.t) : result TaskState.t :=
  Raise (Py.AttributeError
           match name with
           | TaskState.RUNNING => "RUNNING"
           | TaskState.COMPLETED => "COMPLETED"
           | TaskState.FAILED => "FAILED"
           end).

(** [new_text_artifact(task_id=..., content=..., title=...)] *)
Definition new_text_artifact (task_id : string) (content : pyval) (title : string)
  : result Artifact :=
  Raise (Py.TypeError "new_text_artifact() got an unexpected keyword argument 'task_id'").

(** What [execute] reads and writes: the flag of [self], the queue it is
    handed (oldest event first) and the agent. *)
Record store (A : Type) := Store {
  _initialized : bool;
  event_queue : list Event;
  agent : A;
}.
Arguments Store {A}.
Arguments _initialized {A}.
Arguments event_queue {A}.
Arguments agent {A}.

Section Executor.

Context {A : Type}.
Variable api : agent_api A.

(** [event_queue.enqueue], the attribute a call looks up before it
    evaluates its argument. *)
Definition event_queue_enqueue : result (Event -> Eff.M (store A) unit) :=
  Raise (Py.AttributeError "'EventQueue' object has no attribute 'enqueue'").

(** [await event_queue.enqueue(TaskStatusUpdateEvent(task_id=task.id,
    status=TaskStatus.S, state=TaskState.T, message=m))] *)
Definition enqueue_status (task : Task) (status : TaskStatus.t) (state : TaskState.t)
    (message : string) : Eff.M (store A) unit :=
  enqueue <~ Eff.lift event_queue_enqueue ;;
  status <~ Eff.lift (TaskStatus_attribute status) ;;
  state <~ Eff.lift (TaskState_attribute state) ;;
  enqueue (TaskStatusUpdateEvent (id task) status state message).

(** [await event_queue.enqueue(TaskArtifactUpdateEvent(task_id=task.id,
    artifact=a))] *)
Definition enqueue_artifact (task : Task) (artifact : Artifact) : Eff.M (store A) unit :=
  enqueue <~ Eff.lift event_queue_enqueue ;;
  enqueue (TaskArtifactUpdateEvent (id task) artifact).

(** [await self.agent.m(...)] *)
Definition on_agent {B} (m : Eff.M A B) : Eff.M (store A) B :=
  fun st =>
    let (a, r) := m (agent st) in
    (Store (_initialized st) (event_queue st) a, r).

Definition set_initialized : Eff.M (store A) unit :=
  Eff.modify (fun st => Store true (event_queue st) (agent st)).

Definition error_content (error_message : string) : pyval :=
  PStr ("Sorry, I encountered an error while querying the Cosmos DB: " +:+ error_message).

Definition _send_error (request_context : RequestContext) (error_message : string)
  : Eff.M (store A) unit :=
  task <~ Eff.lift (context_task request_context) ;;
  error_artifact <~ Eff.lift (new_text_artifact (id task)
                                (error_content error_message) "Error") ;;
  enqueue_artifact task error_artifact ;;;
  enqueue_status task TaskStatus.FAILED TaskState.FAILED error_message.

(** The statements of the [try] that follow the initialisation. *)
Definition run_query (request_context : RequestContext) : Eff.M (store A) unit :=
  task <~ Eff.lift (context_task request_context) ;;
  user_query <~ Eff.lift (task_description task) ;;
  enqueue_status task TaskStatus.IN_PROGRESS TaskState.RUNNING
    "Processing Cosmos DB query..." ;;;
  response <~ on_agent (agent_process_query api user_query) ;;
  text_artifact <~ Eff.lift (new_text_artifact (id task) response
                               "Cosmos DB Query Result") ;;
  enqueue_artifact task text_artifact ;;;
  enqueue_status task TaskStatus.COMPLETED TaskState.COMPLETED
    "Cosmos DB query completed successfully".

(** The body of the [try] of [execute]. *)
Definition execute_body (request_context : RequestContext) : Eff.M (store A) unit :=
  initialized <~ Eff.gets _initialized ;;
  if negb initialized then
    success <~ on_agent (agent_initialize api) ;;
    if negb success then
      _send_error request_context "Failed to initialize Cosmos Query Agent"
    else
      set_initialized ;;;
      run_query request_context
  else
    run_query request_context.

(** The handler calls [_send_error] outside any [try]: what that raises
    leaves [execute]. *)
Definition execute (request_context : RequestContext) : Eff.M (store A) unit :=
  Eff.try_except
    (execute_body request_context)
    (fun e =>
       _send_error request_context
         ("Error executing Cosmos Query Agent task: " +:+ exn_str e)).

(** [cancel] *)
Definition cancel (request_context : RequestContext) : Eff.M (store A) unit :=
  Eff.raise (Exn "Exception" "Cosmos Query Agent task was cancelled").

End Executor.

End CosmosQueryAgentExecutor.

(** ** playwright_agent/agent_executor.py *)

Module SemanticKernelMCPAgentExecutor.

Module TaskState.
Inductive t := failed | input_required | completed | working.
End TaskState.

Record Message := {
  message_text : string;
  message_context_id : option string;
  message_task_id : option string;
}.

Definition new_agent_text_message (text : string) (context_id task_id : option string)
  : Message :=
  {| message_text := text; message_context_id := context_id; message_task_id := task_id |}.

Record TaskStatus := { state : TaskState.t; message : option Message }.

Record Task := { id : string; context_id : string }.

Record Artifact := { name : string; description : string; artifact_text : string }.

(** The events of the framework.  A status update has the fields
    [status], [final], [context_id] and [task_id], all four required. *)
Inductive Event :=
| NewTask (task : Task)
| TaskStatusUpdateEvent (status : TaskStatus) (final : bool)
    (context_id : string) (task_id : string)
| TaskArtifactUpdateEvent (append : bool) (context_id : string) (task_id : string)
    (last_chunk : bool) (artifact : Artifact).

Record RequestContext := {
  user_input : string;             (* context.get_user_input() *)
  current_task : option Task;
  request_message : string;        (* context.message *)
}.

(** One item of [agent.stream]: a dict with the three keys the loop reads. *)
Record Partial := {
  require_user_input : bool;
  is_task_complete : bool;
  content : string;
}.

(** The three names the loop body assigns; [None] while unassigned. *)
Record Locals := {
  require_input : option bool;
  is_done : option bool;
  text_content : option string;
}.

Definition unassigned : Locals :=
  {| require_input := None; is_done := None; text_content := None |}.

(** Reading a local name. *)
Definition read {B} (name : string) (v : option B) : result B :=
  match v with
  | Some b => Ok b
  | None =>
      Raise (Py.UnboundLocalError
               ("cannot access local variable '" +:+ name
                +:+ "' where it is not associated with a value"))
  end.

Record store := Store {
  _initialized : bool;
  event_queue : list Event;
}.

Section Executor.

(** The agent, whose module is not part of the sources at hand: whether
    [initialize_playwright] returns or raises, and for a query and a
    context id the items [stream] yields, followed by [None] when the
    generator is exhausted or by the exception it raises. *)
Variable initialize_playwright : result unit.
Variable stream : string -> string -> list Partial * option exn.
(** [a2a.utils.new_task] *)
Variable new_task : string -> Task.
(** The ValidationError with which the framework refuses a status
    update built from a status and a task id alone. *)
Variable missing_fields : TaskStatus -> string -> exn.

(** [TaskStatusUpdateEvent(status=..., final=..., context_id=...,
    task_id=...)], where [final] and [context_id] may be left out. *)
Definition new_status_update (status : TaskStatus) (final : option bool)
    (context_id : option string) (task_id : string) : result Event :=
  match final, context_id with
  | Some final, Some context_id =>
      Ok (TaskStatusUpdateEvent status final context_id task_id)
  | _, _ => Raise (missing_fields status task_id)
  end.

(** [await event_queue.enqueue_event(e)] *)
Definition enqueue_event (e : Event) : Eff.M store unit :=
  Eff.modify (fun st => Store (_initialized st) (event_queue st ++ [e])).

Definition set_initialized : Eff.M store unit :=
  Eff.modify (fun st => Store true (event_queue st)).

(** [task = context.current_task], and a new task when there is none. *)
Definition task_of (context : RequestContext) : Eff.M store Task :=
  match current_task context with
  | Some task => Eff.ret task
  | None =>
      let task := new_task (request_message context) in
      enqueue_event (NewTask task) ;;;
      Eff.ret task
  end.

(** [async for partial in ...: <three assignments>] *)
Fixpoint async_for (items : list Partial) (ending : option exn) (locals : Locals)
  : Eff.M store Locals :=
  match items with
  | partial :: rest =>
      async_for rest ending
        {| require_input := Some (require_user_input partial);
           is_done := Some (is_task_complete partial);
           text_content := Some (content partial) |}
  | [] =>
      match ending with
      | None => Eff.ret locals
      | Some e => Eff.raise e
      end
  end.

(** The statements after the loop. *)
Definition report (task : Task) (locals : Locals) : Eff.M store unit :=
  require_input <~ Eff.lift (read "require_input" (require_input locals)) ;;
  if require_input : bool then
    text_content <~ Eff.lift (read "text_content" (text_content locals)) ;;
    event <~ Eff.lift
               (new_status_update
                  {| state := TaskState.input_required;
                     message := Some (new_agent_text_message text_content
                                        (Some (context_id task)) (Some (id task))) |}
                  (Some true) (Some (context_id task)) (id task)) ;;
    enqueue_event event
  else
    is_done <~ Eff.lift (read "is_done" (is_done locals)) ;;
    if is_done : bool then
      text_content <~ Eff.lift (read "text_content" (text_content locals)) ;;
      enqueue_event
        (TaskArtifactUpdateEvent false (context_id task) (id task) true
           {| name := "current_result";
              description := "Result of request to agent.";
              artifact_text := text_content |}) ;;;
      event <~ Eff.lift
                 (new_status_update
                    {| state := TaskState.completed; message := None |}
                    (Some true) (Some (context_id task)) (id task)) ;;
      enqueue_event event
    else
      text_content <~ Eff.lift (read "text_content" (text_content locals)) ;;
      event <~ Eff.lift
                 (new_status_update
                    {| state := TaskState.working;
                       message := Some (new_agent_text_message text_content
                                          (Some (context_id task)) (Some (id task))) |}
                    (Some false) (Some (context_id task)) (id task)) ;;
      enqueue_event event.

(** The status update of the two handlers: a failed status with a text
    and the task id, without [final] and [context_id]. *)
Definition failed_event (task : Task) (text : string) : result Event :=
  new_status_update
    {| state := TaskState.failed;
       message := Some (new_agent_text_message text None None) |}
    None None (id task).

(** From [query = context.get_user_input()] to the end of [execute]. *)
Definition run (context : RequestContext) : Eff.M store unit :=
  let query := user_input context in
  task <~ task_of context ;;
  Eff.try_except
    (let (items, ending) := stream query (context_id task) in
     locals <~ async_for items ending unassigned ;;
     report task locals)
    (fun e =>
       event <~ Eff.lift
                  (failed_event task
                     ("Playwright agent execution failed: " +:+ exn_str e)) ;;
       enqueue_event event).

(** [execute]; the handler of the first [try] ends with [return], which
    the boolean it yields stands for.  What a handler raises leaves
    [execute]. *)
Definition execute (context : RequestContext) : Eff.M store unit :=
  initialized <~ Eff.gets _initialized ;;
  if negb initialized then
    go_on <~ Eff.try_except
               (Eff.lift initialize_playwright ;;;
                set_initialized ;;;
                Eff.ret true)
               (fun e =>
                  task <~ task_of context ;;
                  event <~ Eff.lift
                             (failed_event task
                                ("Failed to initialize Playwright agent: "
                                 +:+ exn_str e)) ;;
                  enqueue_event event ;;;
                  Eff.ret false) ;;
    if go_on : bool then run context else Eff.ret tt
  else
    run context.

(** [cancel] *)
Definition cancel (context : RequestContext) : Eff.M store unit :=
  Eff.raise (Exn "Exception" "cancel not supported").

End Executor.

End SemanticKernelMCPAgentExecutor.

(** ** test_mcp_complete.py *)

Module TestMcpComplete.

Import PyStr.

Definition mcp_url : string := "http://127.0.0.1:8080/mcp".

Definition initialize_body : pyval :=
  PDict {[ "jsonrpc" := PStr "2.0";
           "id" := PInt 1;
           "method" := PStr "initialize";
           "params" := PDict {[ "protocolVersion" := PStr "2024-11-05";
                                "capabilities" := PDict ∅;
                                "clientInfo" := PDict {[ "name" := PStr "CompleteTestClient";
                                                         "version" := PStr "1.0.0" ]} ]} ]}.

Definition tools_list_body : pyval :=
  PDict {[ "jsonrpc" := PStr "2.0";
           "id" := PInt 2;
           "method" := PStr "tools/list";
           "params" := PDict ∅ ]}.

(** [a or b] on two results of [headers.get]: [None] and the empty string
    are the false ones. *)
Definition py_or (a b : option string) : option string :=
  match a with
  | Some s => if bool_decide (s = "") then b else Some s
  | None => b
  end.

(** The header lookup is by lower-case name, as the client's header
    mapping ignores case. *)
Definition session_id_of (hdrs : gmap string string) : option string :=
  py_or (hdrs !! "mcp-session-id") (hdrs !! "x-session-id").

Section Script.

Variable w : world.

(** The [print] of each tool: its two lookups can raise. *)
Fixpoint print_tools (tools : list pyval) : result unit :=
  match tools with
  | [] => Ok tt
  | tool :: rest =>
      _ ← Py.getitem tool "name";
      _ ← Py.get tool "description" (PStr "No description");
      print_tools rest
  end.

(** The loop over the lines of a response: [Some tools] when it reaches
    [return tools], [None] when it runs to its end. *)
Fixpoint scan_lines (lines : list string) : result (option pyval) :=
  match lines with
  | [] => Ok None
  | line :: rest =>
      if startswith "data: " line then
        result ← json_loads w (drop 6 line);
        has_result ← Py.contains "result" result;
        has_tools ← (if has_result : bool
                     then r ← Py.getitem result "result"; Py.contains "tools" r
                     else Ok false);
        if has_tools : bool then
          r ← Py.getitem result "result";
          tools ← Py.getitem r "tools";
          items ← Py.iter tools;
          _ ← print_tools items;
          Ok (Some tools)
        else scan_lines rest
      else scan_lines rest
  end.

(** The loop over the header names; the function ends after the loop,
    so leaving it by [break] or by exhaustion returns [None]. *)
Fixpoint try_headers (names : list string) (session_id : string) : Net pyval :=
  match names with
  | [] => Eff.ret PNone
  | header_name :: rest =>
      tools_response <~ client_post w mcp_url
                          (<[header_name := session_id]> json_headers)
                          tools_list_body ;;
      if (status_code tools_response =? 200)
         && negb (contains "error" (text tools_response)) then
        if contains "event: message" (text tools_response) then
          found <~ Eff.lift (scan_lines (split_on "010"%char (text tools_response))) ;;
          match found with
          | Some tools => Eff.ret tools
          | None => Eff.ret PNone
          end
        else Eff.ret PNone
      else try_headers rest session_id
  end.

Definition test_mcp_complete : Net pyval :=
  Eff.try_except
    (response <~ client_post w mcp_url json_headers initialize_body ;;
     match session_id_of (headers response) with
     | Some session_id =>
         if bool_decide (session_id = "") then Eff.ret PNone
         else try_headers ["mcp-session-id"; "x-session-id"] session_id
     | None => Eff.ret PNone
     end)
    (fun e => Eff.ret PNone).

End Script.

End TestMcpComplete.

(** ** The scripts that drive the agent: cosmos_query_agent/test_agent.py,
       cosmos_query_agent/test_simple_tools.py, and test_endpoints.py *)

Module Scripts.

Import PyStr.

(** What a script leaves behind: the requests it sent and the lines it
    printed, both oldest first. *)
Record console := Console {
  sent : list request;
  printed : list string;
}.

Abbreviation Script := (Eff.M console).

(** [await] of a call that talks to the peer. *)
Definition net {A} (m : Net A) : Script A :=
  fun c =>
    let (s, r) := m (sent c) in
    (Console s (printed c), r).

Definition print (line : string) : Script unit :=
  Eff.modify (fun c => Console (sent c) (printed c ++ [line])).

(** [s[:n]] *)
Fixpoint take (n : nat) (s : string) : string :=
  match n, s with
  | S n', String c t => String c (take n' t)
  | _, _ => EmptyString
  end.

Section WithWorld.

Variable w : world.
(** [os.getenv], which [CosmosQueryAgent()] reads. *)
Variable getenv : string -> option string.

(** [print(f"Result: {result}")] *)
Definition print_result (result : pyval) : Script unit :=
  print ("Result: " +:+ py_str w result).

(** test_agent.py *)
Definition test_cosmos_query_agent : Script unit :=
  print "🧪 Testing Cosmos Query Agent..." ;;;
  let agent := CosmosQueryAgent.__init__ getenv in
  print (nl +:+ "1. Initializing agent...") ;;;
  success <~ net (CosmosQueryAgent.initialize w agent) ;;
  if negb success then
    print "❌ Failed to initialize agent"
  else
    print "✅ Agent initialized successfully" ;;;
    print (nl +:+ "2. Testing: List containers") ;;;
    result <~ net (CosmosQueryAgent.process_query w agent
                     "Show me all containers in the database") ;;
    print_result result ;;;
    print (nl +:+ "3. Testing: Query time_agent data") ;;;
    result <~ net (CosmosQueryAgent.process_query w agent
                     "Show me time_agent entries") ;;
    print_result result ;;;
    print (nl +:+ "4. Testing: Count documents") ;;;
    result <~ net (CosmosQueryAgent.process_query w agent
                     "How many documents are in the actions container?") ;;
    print_result result ;;;
    print (nl +:+ "5. Testing: Describe container") ;;;
    result <~ net (CosmosQueryAgent.process_query w agent
                     "Describe the actions container schema") ;;
    print_result result ;;;
    print (nl +:+ "6. Testing: Direct SQL query") ;;;
    result <~ net (CosmosQueryAgent.process_query w agent
                     "SELECT * FROM c WHERE c.agent_name = 'TimeAgent' ORDER BY c._ts DESC") ;;
    print_result result ;;;
    print (nl +:+ "🎉 All tests completed!").

(** test_simple_tools.py *)
Definition test_simple_tools : Script unit :=
  print "🧪 Testing Individual Tools..." ;;;
  let agent := CosmosQueryAgent.__init__ getenv in
  print (nl +:+ "1. Initializing agent...") ;;;
  success <~ net (CosmosQueryAgent.initialize w agent) ;;
  if negb success then
    print "❌ Failed to initialize agent"
  else
    print "✅ Agent initialized successfully" ;;;
    print (nl +:+ "2. Testing: list_collections (no parameters)") ;;;
    result <~ net (CosmosQueryAgent._call_mcp_tool w agent "list_collections" None) ;;
    print_result result ;;;
    print (nl +:+ "3. Testing: count_documents (no parameters)") ;;;
    result <~ net (CosmosQueryAgent._call_mcp_tool w agent "count_documents" None) ;;
    print_result result ;;;
    print (nl +:+ "4. Testing: query_cosmos with simple query") ;;;
    result <~ net (CosmosQueryAgent._call_mcp_tool w agent "query_cosmos"
                     (Some {[ "query" := PStr "SELECT * FROM c OFFSET 0 LIMIT 3" ]})) ;;
    print_result result.

(** The loop of test_endpoints.py: each GET has its own [try]. *)
Fixpoint probe (endpoints : list string) : Script unit :=
  match endpoints with
  | [] => Eff.ret tt
  | endpoint :: rest =>
      Eff.try_except
        (response <~ net (client_get w ("http://localhost:10003" +:+ endpoint)) ;;
         print ("   " +:+ endpoint +:+ ": " +:+ pretty (status_code response)
                +:+ " - " +:+ take 100 (text response) +:+ "..."))
        (fun e => print ("   " +:+ endpoint +:+ ": Error - " +:+ exn_str e)) ;;;
      probe rest
  end.

Definition endpoints : list string := ["/"; "/agent_card"; "/card"; "/health"; "/info"].

Definition test_endpoints : Script unit :=
  print "🔍 Testing TimeAgent endpoints..." ;;;
  probe endpoints.

End WithWorld.

End Scripts.
(** ** Worlds to run the model in *)

Module Fixture.

Definition show (v : pyval) : string :=
  match v with
  | PNone => "None"
  | PBool true => "True"
  | PBool false => "False"
  | PInt n => pretty n
  | PFloat s => s
  | PStr s => s
  | PList _ => "[...]"
  | PDict _ => "{...}"
  end.

(** A peer that answers every POST with status [status] and body [body],
    where [body] decodes to [decoded]. *)
Definition peer (status : Z) (body : string) (decoded : result pyval) : world :=
  {| http_get := fun _ => Ok (Response 200 "" ∅);
     http_post := fun _ _ _ => Ok (Response status body ∅);
     now_isoformat := "2025-01-01T00:00:00";
     int_max_str_digits := 4300;
     repr := show;
     json_loads := fun s =>
       if bool_decide (s = body) then decoded
       else Raise (Exn "JSONDecodeError" "Expecting value: line 1 column 1 (char 0)") |}.

(** A peer that cannot be reached. *)
Definition unreachable : world :=
  {| http_get := fun _ => Raise (Exn "ConnectError" "All connection attempts failed");
     http_post := fun _ _ _ => Raise (Exn "ConnectError" "All connection attempts failed");
     now_isoformat := "2025-01-01T00:00:00";
     int_max_str_digits := 4300;
     repr := show;
     json_loads := fun _ => Raise (Exn "JSONDecodeError" "Expecting value: line 1 column 1 (char 0)") |}.

Definition tool_text (s : string) : pyval :=
  PDict {[ "jsonrpc" := PStr "2.0";
           "result" := PDict {[ "content" := PList [PDict {[ "type" := PStr "text"; "text" := PStr s ]}] ]} ]}.

Definition agent : CosmosQueryAgent.t := CosmosQueryAgent.__init__ (fun _ => None).

End Fixture.

(** ** The dispatch of [process_query], as a table

    The keyword groups in the order tested, each with the tool it stands
    for; [first_matching] is the first group that a lower-cased query
    matches.  These definitions are not read off [process_query]: the
    theorems below compare it with them. *)

Module Dispatch.

Import PyStr CosmosQueryAgent.

Inductive group :=
| GList | GDescribe | GSample | GCount | GPartition | GIndex | GLinks | GSelect | GTime.

Definition groups : list group :=
  [GList; GDescribe; GSample; GCount; GPartition; GIndex; GLinks; GSelect; GTime].

Definition matches (query_lower : string) (g : group) : bool :=
  match g with
  | GList => any_in kw_list query_lower
  | GDescribe => any_in kw_describe query_lower
  | GSample => any_in kw_sample query_lower
  | GCount => any_in kw_count query_lower
  | GPartition => any_in kw_partition query_lower
  | GIndex => any_in kw_index query_lower
  | GLinks => any_in kw_links query_lower
  | GSelect => contains "select" query_lower || contains "from" query_lower
  | GTime => any_in kw_time query_lower
  end.

Definition first_matching (query_lower : string) : option group :=
  find (matches query_lower) groups.

Definition tool_of (g : group) : string :=
  match g with
  | GList => "list_collections"
  | GDescribe => "describe_container"
  | GSample => "get_sample_documents"
  | GCount => "count_documents"
  | GPartition => "get_partition_key_info"
  | GIndex => "get_indexing_policy"
  | GLinks => "find_implied_links"
  | GSelect => "query_cosmos"
  | GTime => "query_cosmos"
  end.

(** The one request that calling [tool_name] with [arguments] sends. *)
Definition tool_request (w : world) (self : t) (tool_name : string)
    (arguments : gmap string pyval) : request :=
  POST (mcp_server_url self) json_headers (request_data w tool_name arguments).

(** Whether the string has a digit. *)
Fixpoint has_digit (s : string) : bool :=
  match s with
  | EmptyString => false
  | String c t => is_digit c || has_digit t
  end.

(** The digits the string starts with. *)
Fixpoint leading_digits (s : string) : string :=
  match s with
  | EmptyString => EmptyString
  | String c t => if is_digit c then String c (leading_digits t) else EmptyString
  end.

(** The first digit sequence of the string: the digits that start at its
    first digit. *)
Fixpoint first_digit_sequence (s : string) : string :=
  match s with
  | EmptyString => EmptyString
  | String c t => if is_digit c then leading_digits s else first_digit_sequence t
  end.

(** Whether [int] refuses the first digit sequence of the query: it is
    longer than the limit the interpreter sets, if it sets one. *)
Definition int_refused (w : world) (query : string) : bool :=
  bool_decide (0 < int_max_str_digits w)%nat
  && bool_decide (int_max_str_digits w < String.length (first_digit_sequence query))%nat.

(** Whether the branch of group [g] gets as far as its tool call. *)
Definition reaches_tool (w : world) (g : group) (query : string) : bool :=
  match g with
  | GList => contains "container" (lower query) || contains "collection" (lower query)
  | GSample => negb (int_refused w query)
  | _ => true
  end.

(** The limit of the sample branch: the first digit sequence of the
    query capped at 10 when the query has a digit, 5 otherwise. *)
Definition sample_limit (query : string) : Z :=
  if has_digit query
  then Z.min (digits_value 0 (first_digit_sequence query)) 10
  else 5.

(** Whether a request carries, as a tool call does, a [limit] argument
    that is no integer or is above [bound]. *)
Definition limit_above (bound : Z) (r : request) : bool :=
  match r with
  | POST _ _ (PDict body) =>
      match body !! "params" with
      | Some (PDict params) =>
          match params !! "arguments" with
          | Some (PDict arguments) =>
              match arguments !! "limit" with
              | Some (PInt n) => bound <? n
              | Some _ => true
              | None => false
              end
          | _ => false
          end
      | _ => false
      end
  | _ => false
  end.

End Dispatch.

(** * Theorems *)

(** ** Running the effects *)

Section EffFacts.

Context {S A B : Type}.

Lemma bind_ok (m : Eff.M S A) (k : A -> Eff.M S B) s s' a :
  m s = (s', Ok a) -> Eff.bind m k s = k a s'.
Proof. intros H. unfold Eff.bind. rewrite H. reflexivity. Qed.

Lemma bind_raise (m : Eff.M S A) (k : A -> Eff.M S B) s s' e :
  m s = (s', Raise e) -> Eff.bind m k s = (s', Raise e).
Proof. intros H. unfold Eff.bind. rewrite H. reflexivity. Qed.

Lemma try_ok (m : Eff.M S A) h s s' a :
  m s = (s', Ok a) -> Eff.try_except m h s = (s', Ok a).
Proof. intros H. unfold Eff.try_except. rewrite H. reflexivity. Qed.

Lemma try_raise (m : Eff.M S A) h s s' e :
  m s = (s', Raise e) -> Eff.try_except m h s = h e s'.
Proof. intros H. unfold Eff.try_except. rewrite H. reflexivity. Qed.

End EffFacts.

(** ** [_call_mcp_tool] *)

Section CallMcpTool.

Import CosmosQueryAgent Dispatch.

Variable w : world.
Variable self : t.

(** What the peer does with the request of a tool call. *)
Definition tool_outcome (tool_name : string) (arguments : gmap string pyval)
  : result response :=
  http_post w (mcp_server_url self) json_headers (request_data w tool_name arguments).

(** The value a tool call comes back with. *)
Definition tool_value (tool_name : string) (arguments : gmap string pyval) : pyval :=
  match tool_outcome tool_name arguments ≫= response_value w with
  | Ok v => v
  | Raise e => PStr ("Error calling tool: " +:+ exn_str e)
  end.

(** A tool call sends its one request and returns; it never raises. *)
Lemma call_mcp_tool_run tool_name arguments sent :
  _call_mcp_tool w self tool_name arguments sent
  = (sent ++ [tool_request w self tool_name (default ∅ arguments)],
     Ok (tool_value tool_name (default ∅ arguments))).
Proof.
  unfold _call_mcp_tool, tool_value, tool_outcome, tool_request,
    Eff.try_except, Eff.bind, client_post, Eff.lift, Eff.ret.
  destruct (http_post w _ _ _) as [resp|e]; simpl; [|reflexivity].
  destruct (response_value w resp); reflexivity.
Qed.


Lemma response_value_200 resp :
  status_code resp = 200 ->
  response_value w resp
  = (result ← json_loads w (text resp);
     has_result ← Py.contains "result" result;
     if has_result : bool then
       r ← Py.getitem result "result";
       content ← Py.get r "content" (PList [PDict ∅]);
       first ← Py.getitem0 content;
       Py.get first "text" (PStr "No result")
     else
       has_error ← Py.contains "error" result;
       if has_error : bool then
         err ← Py.getitem result "error";
         message ← Py.get err "message" (PStr "Unknown error");
         Ok (PStr ("Error: " +:+ py_str w message))
       else Ok (PStr "Unknown response format")).
Proof. intros H. unfold response_value. rewrite H. reflexivity. Qed.









End CallMcpTool.

(** ** The digits that the sample branch reads *)

Section Digits.

Import PyStr Dispatch.

Lemma runs_digits_some acc s :
  head (runs_go is_digit (Some acc) s) = Some (String.rev_app acc (leading_digits s)).
Proof.
  revert acc. induction s as [|c t IH]; intros acc; simpl.
  - reflexivity.
  - destruct (is_digit c); simpl.
    + unfold push. simpl. rewrite IH. reflexivity.
    + reflexivity.
Qed.

Lemma runs_digits_none s :
  head (runs_go is_digit None s)
  = if has_digit s then Some (first_digit_sequence s) else None.
Proof.
  induction s as [|c t IH]; simpl.
  - reflexivity.
  - destruct (is_digit c) eqn:Hc; simpl.
    + unfold push. simpl. rewrite runs_digits_some. reflexivity.
    + exact IH.
Qed.

Lemma no_digit_no_sequence s : has_digit s = false -> first_digit_sequence s = "".
Proof.
  induction s as [|c t IH]; simpl; [reflexivity|].
  destruct (is_digit c); simpl; [discriminate | exact IH].
Qed.

(** [re.findall] finds nothing exactly when the string has no digit, and
    otherwise its first item is the first digit sequence. *)
Lemma findall_digits_first s :
  match findall_digits s with
  | first :: _ => has_digit s = true ∧ first = first_digit_sequence s
  | [] => has_digit s = false
  end.
Proof.
  pose proof (runs_digits_none s) as H. unfold findall_digits.
  destruct (runs_go is_digit None s) as [|first rest]; simpl in H;
    destruct (has_digit s); try discriminate; auto.
  injection H as ->. auto.
Qed.

Variable w : world.

(** The limit as the sample branch computes it. *)
Lemma sample_branch_limit query :
  match findall_digits query with
  | first :: _ => n ← py_int w first; Ok (Z.min n 10)
  | [] => Ok 5
  end
  = if int_refused w query
    then Raise (Py.ValueError
           ("Exceeds the limit (" +:+ pretty (int_max_str_digits w)
            +:+ " digits) for integer string conversion: value has "
            +:+ pretty (String.length (first_digit_sequence query))
            +:+ " digits; use sys.set_int_max_str_digits() to increase the limit"))
    else Ok (sample_limit query).
Proof.
  pose proof (findall_digits_first query) as H.
  unfold int_refused, sample_limit.
  destruct (findall_digits query) as [|first rest].
  - rewrite H, (no_digit_no_sequence _ H). simpl.
    rewrite andb_comm. simpl. reflexivity.
  - destruct H as [-> ->]. unfold py_int.
    destruct (_ && _); reflexivity.
Qed.

Lemma sample_limit_le query : sample_limit query ≤ 10.
Proof. unfold sample_limit. destruct (has_digit query); lia. Qed.

End Digits.

(** ** [process_query] *)

Section ProcessQuery.

Import PyStr CosmosQueryAgent Dispatch.

Variable w : world.
Variable self : t.

(** A branch of [process_query]: one tool call, its result under a label. *)
Lemma labelled_call label tool_name arguments h sent :
  Eff.try_except
    (result <~ _call_mcp_tool w self tool_name arguments ;;
     Eff.ret (labelled w label result)) h sent
  = (sent ++ [tool_request w self tool_name (default ∅ arguments)],
     Ok (labelled w label (tool_value w self tool_name (default ∅ arguments)))).
Proof.
  apply try_ok. erewrite bind_ok by apply call_mcp_tool_run. reflexivity.
Qed.

(** The sample branch, from the computation of the limit on. *)
Lemma sample_branch query h sent :
  Eff.try_except
    (limit <~ Eff.lift (match findall_digits query with
                        | first :: _ => n ← py_int w first; Ok (Z.min n 10)
                        | [] => Ok 5
                        end) ;;
     result <~ get_sample_documents w self (actions_if_mentioned (lower query)) limit ;;
     Eff.ret (labelled w "Sample documents:" result)) h sent
  = if int_refused w query
    then h (Py.ValueError
           ("Exceeds the limit (" +:+ pretty (int_max_str_digits w)
            +:+ " digits) for integer string conversion: value has "
            +:+ pretty (String.length (first_digit_sequence query))
            +:+ " digits; use sys.set_int_max_str_digits() to increase the limit")) sent
    else Eff.try_except
           (result <~ get_sample_documents w self (actions_if_mentioned (lower query))
                        (sample_limit query) ;;
            Eff.ret (labelled w "Sample documents:" result)) h sent.
Proof.
  rewrite sample_branch_limit.
  destruct (int_refused w query); reflexivity.
Qed.

Ltac branch E :=
  match goal with
  | |- context [if ?c then _ else _] => destruct c eqn:E; cbv iota
  end.

(** C1, as amended.  [process_query] goes by the first keyword group that
    the lower-cased query matches, and by that group alone.  For the
    describe, count, partition, index, relationship, select and
    time_agent groups, and for the list group when the lower-cased query
    also has [container] or [collection] in it, it sends the one request
    of that group's tool and nothing else.  For the sample group it does
    so when [int] accepts the first digit sequence of the query; when
    [int] refuses it, as it does above the interpreter's digit limit, the
    [except] clause returns the [Sorry, I encountered an error] text and
    no request is sent.  A query that matches no group gets the help
    text, and nothing is sent.  (Nothing is said here of a query of the
    list group with neither [container] nor [collection] in it: see
    C2.) *)
Theorem process_query_dispatch query sent :
  match first_matching (lower query) with
  | Some g =>
      if reaches_tool w g query
      then ∃ arguments,
             fst (process_query w self query sent)
             = sent ++ [tool_request w self (tool_of g) arguments]
      else match g with
           | GSample =>
               ∃ message,
                 process_query w self query sent
                 = (sent,
                    Ok (PStr ("Sorry, I encountered an error while processing your query: "
                              +:+ message)))
           | _ => True
           end
  | None =>
      process_query w self query sent
      = (sent, Ok (PStr (help_head +:+ query +:+ help_tail)))
  end.
Proof.
  unfold first_matching, groups, process_query. cbn [find matches]. cbv zeta.
  branch E1.
  { simpl reaches_tool. branch G; [|exact I].
    unfold list_containers. rewrite labelled_call. eexists. reflexivity. }
  branch E2.
  { simpl reaches_tool. cbv iota.
    unfold describe_container. rewrite labelled_call. eexists. reflexivity. }
  branch E3.
  { simpl reaches_tool. rewrite sample_branch.
    destruct (int_refused w query); simpl; [eexists; reflexivity|].
    unfold get_sample_documents. rewrite labelled_call. eexists. reflexivity. }
  branch E4.
  { unfold count_documents. rewrite labelled_call. eexists. reflexivity. }
  branch E5.
  { unfold get_partition_key_info. rewrite labelled_call. eexists. reflexivity. }
  branch E6.
  { unfold get_indexing_policy. rewrite labelled_call. eexists. reflexivity. }
  branch E7.
  { unfold find_implied_links. rewrite labelled_call. eexists. reflexivity. }
  branch E8.
  { unfold query_cosmos_db. rewrite labelled_call. eexists. reflexivity. }
  branch E9.
  { unfold query_cosmos_db. rewrite labelled_call. eexists. reflexivity. }
  reflexivity.
Qed.

(** C2, on the code as it is: the first help-text example of the agent
    itself, [Show me time_agent entries], matches the list group through
    [show], has neither [container] nor [collection] in it, and so runs
    off the end of [process_query], which returns [None] and sends
    nothing, whatever the peer. *)
Theorem process_query_returns_none sent :
  process_query w self "Show me time_agent entries" sent = (sent, Ok PNone).
Proof. reflexivity. Qed.

(** The same for every query of that kind. *)
Lemma list_group_without_container query sent :
  any_in kw_list (lower query) = true ->
  contains "container" (lower query) || contains "collection" (lower query) = false ->
  process_query w self query sent = (sent, Ok PNone).
Proof.
  intros H1 H2. unfold process_query. cbv zeta. rewrite H1, H2. reflexivity.
Qed.


Lemma container_args_no_limit container_name :
  container_args container_name !! "limit" = None.
Proof.
  unfold container_args. destruct container_name as [n|]; [|reflexivity].
  destruct (bool_decide (n = "")); reflexivity.
Qed.

(** The request of [get_sample_documents] carries the limit it is given,
    or none when that is 5. *)
Lemma get_sample_documents_run container_name limit sent :
  limit ≤ 10 ->
  ∃ r result,
    get_sample_documents w self container_name limit sent = (sent ++ [r], Ok result)
    ∧ limit_above 10 r = false.
Proof.
  intros Hle. unfold get_sample_documents. cbv zeta.
  rewrite call_mcp_tool_run. do 2 eexists. split; [reflexivity|].
  unfold tool_request, request_data, limit_above. simpl default.
  rewrite lookup_insert_ne, lookup_insert_ne, lookup_insert_ne by done.
  rewrite lookup_singleton_eq.
  rewrite lookup_insert_ne by done. rewrite lookup_singleton_eq.
  destruct (bool_decide (limit ≠ 5)).
  - rewrite lookup_insert_eq. apply Z.ltb_ge. exact Hle.
  - rewrite container_args_no_limit. reflexivity.
Qed.

(** C9.  A query that reaches the sample branch has [get_sample_documents]
    called with the limit [sample_limit]: the first digit sequence of the
    query capped at 10 when the query has a digit, and 5 otherwise (unless
    [int] refuses the digits, and then nothing is called).  So the limit
    is at most 10, and no request goes out with a limit above 10. *)
Theorem sample_limit_capped query sent :
  any_in kw_list (lower query) = false ->
  any_in kw_describe (lower query) = false ->
  any_in kw_sample (lower query) = true ->
  sample_limit query ≤ 10
  ∧ (if int_refused w query
     then fst (process_query w self query sent) = sent
     else ∃ sent' result,
            get_sample_documents w self (actions_if_mentioned (lower query))
              (sample_limit query) sent = (sent', Ok result)
            ∧ process_query w self query sent
              = (sent', Ok (labelled w "Sample documents:" result)))
  ∧ ∃ new, fst (process_query w self query sent) = sent ++ new
           ∧ existsb (limit_above 10) new = false.
Proof.
  intros H1 H2 H3.
  pose proof (sample_limit_le query) as Hle.
  destruct (get_sample_documents_run (actions_if_mentioned (lower query))
              (sample_limit query) sent Hle) as (r & result & Hrun & Hr).
  assert (Hpq : process_query w self query sent
                = if int_refused w query
                  then (sent, Ok (PStr ("Sorry, I encountered an error while processing your query: "
                          +:+ "Exceeds the limit (" +:+ pretty (int_max_str_digits w)
                          +:+ " digits) for integer string conversion: value has "
                          +:+ pretty (String.length (first_digit_sequence query))
                          +:+ " digits; use sys.set_int_max_str_digits() to increase the limit")))
                  else (sent ++ [r], Ok (labelled w "Sample documents:" result))).
  { unfold process_query. cbv zeta. rewrite H1, H2, H3. cbv iota.
    rewrite sample_branch. destruct (int_refused w query); [reflexivity|].
    apply try_ok. erewrite bind_ok by exact Hrun. reflexivity. }
  split; [exact Hle|]. rewrite Hpq. split.
  - destruct (int_refused w query); [reflexivity|].
    exists (sent ++ [r]), result. split; [exact Hrun | reflexivity].
  - destruct (int_refused w query); simpl.
    + exists []. split; [symmetry; apply app_nil_r | reflexivity].
    + exists [r]. split; [reflexivity|]. simpl. rewrite Hr. reflexivity.
Qed.

End ProcessQuery.

(** ** The agent at concrete queries *)

Section AgentInstances.

Import PyStr CosmosQueryAgent Dispatch Fixture.

(** A peer whose tool answers with the text [three rows]. *)
Definition rows_peer : world := peer 200 "body" (Ok (tool_text "three rows")).

(** A peer whose tool result has an empty content list. *)
Definition empty_content : pyval :=
  PDict {[ "jsonrpc" := PStr "2.0"; "result" := PDict {[ "content" := PList [] ]} ]}.

Definition silent_peer : world := peer 200 "body" (Ok empty_content).



(** A number of [n] digits. *)
Fixpoint sevens (n : nat) : string :=
  match n with
  | O => EmptyString
  | S m => String "7" (sevens m)
  end.

Definition long_query : string := "sample " +:+ sevens 4301 +:+ " documents".

(** C1, as first stated, fails: a query of the sample group with a number
    of 4301 digits in it, one digit above the limit of [int].  The
    conversion raises ValueError, the [except] clause of [process_query]
    returns its text, and the tool of the group is not called: nothing is
    sent. *)
Lemma process_query_dispatch_counterexample :
  first_matching (lower long_query) = Some GSample
  ∧ int_max_str_digits rows_peer = 4300%nat
  ∧ String.length (first_digit_sequence long_query) = 4301%nat
  ∧ process_query rows_peer agent long_query []
    = ([], Ok (PStr ("Sorry, I encountered an error while processing your query: "
                     +:+ "Exceeds the limit (4300 digits) for integer string conversion: "
                     +:+ "value has 4301 digits; "
                     +:+ "use sys.set_int_max_str_digits() to increase the limit"))).
Proof. repeat split; vm_compute; reflexivity. Qed.



Lemma sample_limit_capped_witness :
  sample_limit "preview 25 of the actions" ≤ 10
  ∧ (if int_refused rows_peer "preview 25 of the actions"
     then fst (process_query rows_peer agent "preview 25 of the actions" []) = []
     else ∃ sent' result,
            get_sample_documents rows_peer agent
              (actions_if_mentioned (lower "preview 25 of the actions"))
              (sample_limit "preview 25 of the actions") [] = (sent', Ok result)
            ∧ process_query rows_peer agent "preview 25 of the actions" []
              = (sent', Ok (labelled rows_peer "Sample documents:" result)))
  ∧ ∃ new, fst (process_query rows_peer agent "preview 25 of the actions" []) = [] ++ new
           ∧ existsb (limit_above 10) new = false.
Proof.
  apply (sample_limit_capped rows_peer agent "preview 25 of the actions" []);
    reflexivity.
Defined.

Example sample_limit_25 : sample_limit "preview 25 of the actions" = 10.
Proof. reflexivity. Qed.

Example sample_limit_3 : sample_limit "3 examples, not 40" = 3.
Proof. reflexivity. Qed.

Example sample_limit_default : sample_limit "an example please" = 5.
Proof. reflexivity. Qed.

Example sample_request :
  snd (process_query rows_peer agent "preview 25 of the actions" [])
  = Ok (PStr ("Sample documents:" +:+ nl +:+ "three rows"))
  ∧ fst (process_query rows_peer agent "preview 25 of the actions" [])
    = [tool_request rows_peer agent "get_sample_documents"
         {[ "container_name" := PStr "actions"; "limit" := PInt 10 ]}].
Proof. split; reflexivity. Qed.

Example describe_named_container :
  fst (process_query rows_peer agent "Describe the container Orders now" [])
  = [tool_request rows_peer agent "describe_container"
       {[ "container_name" := PStr "Orders" ]}].
Proof. reflexivity. Qed.

Example unreachable_peer :
  snd (process_query unreachable agent "how many documents" [])
  = Ok (PStr ("Document count:" +:+ nl
              +:+ "Error calling tool: All connection attempts failed")).
Proof. reflexivity. Qed.

End AgentInstances.

(** ** [CosmosQueryAgent.initialize] and [process_query] always return *)

Section AgentTotal.

Import PyStr CosmosQueryAgent.

Variable w : world.
Variable self : t.

Definition health_url : string := replace "/mcp" "/health" (mcp_server_url self).

(** The probe swallows whatever the GET raises. *)
Lemma test_mcp_connection_run sent :
  _test_mcp_connection w self sent = (sent ++ [GET health_url], Ok tt).
Proof.
  unfold _test_mcp_connection, Eff.try_except, Eff.bind, client_get, health_url.
  destruct (http_get w _) as [resp|e]; [|reflexivity].
  destruct (status_code resp =? 200); reflexivity.
Qed.

Lemma initialize_run sent :
  initialize w self sent = (sent ++ [GET health_url], Ok true).
Proof.
  unfold initialize. apply try_ok.
  erewrite bind_ok by apply test_mcp_connection_run. reflexivity.
Qed.

(** Whatever the body of its [try] does, [process_query] returns a value. *)
Lemma process_query_returns query sent :
  ∃ sent' response, process_query w self query sent = (sent', Ok response).
Proof.
  unfold process_query, Eff.try_except.
  match goal with
  | |- context [match ?body sent with _ => _ end] => destruct (body sent) as [sent' [v|e]]
  end.
  - exists sent', v. reflexivity.
  - eexists _, _. reflexivity.
Qed.

End AgentTotal.

(** ** [CosmosQueryAgentExecutor.execute] *)

Section CosmosExecutorFacts.

Import CosmosQueryAgentExecutor.

Context {A : Type}.
Variable api : agent_api A.
Variable request_context : RequestContext.

(** The id of the task of the request, empty when it has none. *)
Let task_id : string := from_option id "" (current_task request_context).

(** The error artifact that [_send_error] describes. *)
Definition error_event (error_message : string) : Event :=
  TaskArtifactUpdateEvent task_id
    {| artifact_task_id := task_id;
       content := error_content error_message;
       title := "Error" |}.

Definition is_completed (e : Event) : bool :=
  match e with
  | TaskStatusUpdateEvent _ TaskStatus.COMPLETED _ _ => true
  | TaskStatusUpdateEvent _ _ TaskState.COMPLETED _ => true
  | _ => false
  end.

Definition is_failed (e : Event) : bool :=
  match e with
  | TaskStatusUpdateEvent _ TaskStatus.FAILED _ _ => true
  | TaskStatusUpdateEvent _ _ TaskState.FAILED _ => true
  | _ => false
  end.

(** Whether [initialize], called on the agent of the store, returns
    [True]. *)
Definition initialize_succeeds (st : store A) : bool :=
  match agent_initialize api (agent st) with
  | (_, Ok true) => true
  | _ => false
  end.

(** The agent once [execute] is past the initialisation. *)
Definition agent_after_init (st : store A) : A :=
  if _initialized st then agent st else fst (agent_initialize api (agent st)).

Lemma send_error_run error_message (st : store A) :
  _send_error request_context error_message st = (st, Raise no_task_attribute).
Proof. reflexivity. Qed.

Lemma run_query_run (st : store A) :
  run_query api request_context st = (st, Raise no_task_attribute).
Proof. reflexivity. Qed.

(** Every run of [execute]: the flag and the agent are as the
    initialisation left them, the queue is as it was, and the
    AttributeError of [request_context.task] leaves [execute]. *)
Lemma execute_run st :
  execute api request_context st
  = (Store (_initialized st || initialize_succeeds st) (event_queue st)
       (agent_after_init st),
     Raise no_task_attribute).
Proof.
  unfold execute, Eff.try_except, execute_body, Eff.bind, Eff.gets,
    initialize_succeeds, agent_after_init.
  destruct st as [i q a]. simpl. destruct i; simpl; [reflexivity|].
  unfold on_agent. simpl.
  destruct (agent_initialize api a) as [a0 [[|]|e]]; reflexivity.
Qed.


(** C5, on the code as it is: a failing [execute] enqueues neither the
    error artifact nor the FAILED status.  [_send_error] starts with
    [task = request_context.task], which raises AttributeError whatever
    the message and the store, so it writes nothing.  Hence when
    [initialize] returns [False], and whenever the body of the [try]
    raises (as it does when [initialize] raises), [execute] itself
    raises, the queue being as the body left it; when the
    initialisation is what failed, that is as it was before. *)
Theorem send_error_raises error_message (st : store A) :
  _send_error request_context error_message st = (st, Raise no_task_attribute)
  ∧ (∀ a, _initialized st = false ->
       agent_initialize api (agent st) = (a, Ok false) ->
       execute api request_context st
       = (Store false (event_queue st) a, Raise no_task_attribute))
  ∧ (∀ a e, _initialized st = false ->
       agent_initialize api (agent st) = (a, Raise e) ->
       execute api request_context st
       = (Store false (event_queue st) a, Raise no_task_attribute))
  ∧ (∀ st' e, execute_body api request_context st = (st', Raise e) ->
       execute api request_context st = (st', Raise no_task_attribute)).
Proof.
  split; [apply send_error_run|]. repeat split.
  - intros a Hi Ha. rewrite execute_run.
    unfold initialize_succeeds, agent_after_init. rewrite Hi, Ha. reflexivity.
  - intros a e Hi Ha. rewrite execute_run.
    unfold initialize_succeeds, agent_after_init. rewrite Hi, Ha. reflexivity.
  - intros st' e Hbody. unfold execute, Eff.try_except. rewrite Hbody.
    apply send_error_run.
Qed.

(** X13.  The flag [_initialized] is never reset, and is set exactly when
    [initialize] returned [True]: after an initialisation that returned
    [False] or raised it is still unset, so the next [execute] tries
    again, and a failure of [process_query] does not unset it. *)
Theorem initialized_flag st :
  _initialized (fst (execute api request_context st))
  = _initialized st || initialize_succeeds st.
Proof. rewrite execute_run. reflexivity. Qed.

End CosmosExecutorFacts.

Section CosmosExecutorConcrete.

Import CosmosQueryAgent CosmosQueryAgentExecutor.

Variable w : world.
Variable self : CosmosQueryAgent.t.
Variable request_context : RequestContext.

(** C8.  [initialize] returns [True] whatever the peer does with the
    health probe, and so [execute] never takes the branch that reports a
    failed initialisation: it enqueues no error artifact and no FAILED
    status, and leaves the flag set. *)
Theorem initialize_always_true :
  (∀ sent, initialize w self sent = (sent ++ [GET (health_url self)], Ok true))
  ∧ ∀ st, ∃ added,
      event_queue (fst (execute (cosmos_agent w self) request_context st))
      = event_queue st ++ added
      ∧ existsb (is_failed) added = false
      ∧ ¬ In (error_event request_context "Failed to initialize Cosmos Query Agent") added
      ∧ _initialized (fst (execute (cosmos_agent w self) request_context st)) = true.
Proof.
  split; [apply initialize_run|].
  intros st. rewrite execute_run. simpl.
  exists []. rewrite app_nil_r. repeat split; [intros []|].
  unfold initialize_succeeds. simpl. rewrite initialize_run.
  apply orb_true_r.
Qed.

(** X14.  The agent is initialised once: the first [execute] of an
    executor sends the health probe, and an [execute] that follows sends
    no request at all. *)
Theorem second_execute_sends_no_probe second st :
  let st1 := fst (execute (cosmos_agent w self) request_context st) in
  let st2 := fst (execute (cosmos_agent w self) second st1) in
  agent st1 = (if _initialized st then agent st
               else agent st ++ [GET (health_url self)])
  ∧ agent st2 = agent st1.
Proof.
  intros st1 st2. unfold st2, st1. rewrite !execute_run. simpl.
  unfold agent_after_init at 2. simpl.
  assert (H : _initialized st || initialize_succeeds (cosmos_agent w self) st = true).
  { unfold initialize_succeeds. simpl. rewrite initialize_run. apply orb_true_r. }
  rewrite H. split; [|reflexivity].
  unfold agent_after_init. simpl. rewrite initialize_run. reflexivity.
Qed.

End CosmosExecutorConcrete.

(** ** [SemanticKernelMCPAgentExecutor.execute] *)

Section PlaywrightFacts.

Import SemanticKernelMCPAgentExecutor.

Variable initialize_playwright : result unit.
Variable stream : string -> string -> list Partial * option exn.
Variable new_task : string -> Task.
Variable missing_fields : TaskStatus -> string -> exn.

Abbreviation execute := (execute initialize_playwright stream new_task missing_fields).

(** The task [execute] works on, and what obtaining it enqueues. *)
Definition task_for (context : RequestContext) : Task :=
  default (new_task (request_message context)) (current_task context).

Definition task_events (context : RequestContext) : list Event :=
  match current_task context with
  | Some _ => []
  | None => [NewTask (new_task (request_message context))]
  end.

(** The outcome that an item of the stream decides. *)
Definition outcome_events (task : Task) (p : Partial) : list Event :=
  if require_user_input p then
    [TaskStatusUpdateEvent
       {| state := TaskState.input_required;
          message := Some (new_agent_text_message (content p)
                             (Some (context_id task)) (Some (id task))) |}
       true (context_id task) (id task)]
  else if is_task_complete p then
    [TaskArtifactUpdateEvent false (context_id task) (id task) true
       {| name := "current_result";
          description := "Result of request to agent.";
          artifact_text := content p |};
     TaskStatusUpdateEvent
       {| state := TaskState.completed; message := None |}
       true (context_id task) (id task)]
  else
    [TaskStatusUpdateEvent
       {| state := TaskState.working;
          message := Some (new_agent_text_message (content p)
                             (Some (context_id task)) (Some (id task))) |}
       false (context_id task) (id task)].

(** The failed status that the handlers build, and the exception with
    which the framework refuses the status update made of it and the
    task id alone. *)
Definition failed_status (text : string) : TaskStatus :=
  {| state := TaskState.failed;
     message := Some (new_agent_text_message text None None) |}.

Definition refused (task : Task) (text : string) : exn :=
  missing_fields (failed_status text) (id task).

Definition unbound_text : string :=
  "cannot access local variable 'require_input' where it is not associated with a value".

Definition assigned (p : Partial) : Locals :=
  {| require_input := Some (require_user_input p);
     is_done := Some (is_task_complete p);
     text_content := Some (content p) |}.

(** The loop leaves the store as it found it, and the names it assigns
    hold what the last item gave them. *)
Lemma async_for_exhausted items locals st :
  async_for items None locals st
  = (st, Ok (from_option assigned locals (last items))).
Proof.
  revert locals. induction items as [|p rest IH]; intros locals; simpl.
  - reflexivity.
  - rewrite IH, last_cons. destruct (last rest); reflexivity.
Qed.

Lemma async_for_store items ending locals st :
  fst (async_for items ending locals st) = st.
Proof.
  revert locals. induction items as [|p rest IH]; intros locals; simpl.
  - destruct ending; reflexivity.
  - apply IH.
Qed.

Lemma async_for_raises items e locals st :
  async_for items (Some e) locals st = (st, Raise e).
Proof.
  revert locals. induction items as [|p rest IH]; intros locals; simpl.
  - reflexivity.
  - apply IH.
Qed.

Lemma task_of_run context st :
  task_of new_task context st
  = (Store (_initialized st) (event_queue st ++ task_events context), Ok (task_for context)).
Proof.
  unfold task_of, task_events, task_for. destruct st as [i q].
  destruct (current_task context); simpl.
  - rewrite app_nil_r. reflexivity.
  - reflexivity.
Qed.

Lemma report_assigned task p st :
  report missing_fields task (assigned p) st
  = (Store (_initialized st) (event_queue st ++ outcome_events task p), Ok tt).
Proof.
  destruct st as [i q]. unfold report, outcome_events.
  destruct p as [[|] [|] c]; try reflexivity.
  unfold Eff.bind, Eff.lift, enqueue_event, Eff.modify. simpl.
  rewrite <- app_assoc. reflexivity.
Qed.

(** The handler of the second [try]: the status update it builds is
    refused, and nothing is enqueued. *)
Lemma handler_raises task e st :
  (event <~ Eff.lift (failed_event missing_fields task
                        ("Playwright agent execution failed: " +:+ exn_str e)) ;;
   enqueue_event event) st
  = (st, Raise (refused task ("Playwright agent execution failed: " +:+ exn_str e))).
Proof. reflexivity. Qed.

Lemma run_exhausted context items p st :
  stream (user_input context) (context_id (task_for context)) = (items, None) ->
  last items = Some p ->
  run stream new_task missing_fields context st
  = (Store (_initialized st)
       (event_queue st ++ task_events context
        ++ outcome_events (task_for context) p), Ok tt).
Proof.
  intros Hs Hlast. unfold run. cbv zeta.
  erewrite bind_ok by apply task_of_run. rewrite Hs.
  unfold Eff.try_except, Eff.bind. rewrite async_for_exhausted, Hlast. simpl.
  rewrite report_assigned. simpl. rewrite <- app_assoc. reflexivity.
Qed.

Lemma run_empty context st :
  stream (user_input context) (context_id (task_for context)) = ([], None) ->
  run stream new_task missing_fields context st
  = (Store (_initialized st) (event_queue st ++ task_events context),
     Raise (refused (task_for context)
              ("Playwright agent execution failed: " +:+ unbound_text))).
Proof.
  intros Hs. unfold run. cbv zeta.
  erewrite bind_ok by apply task_of_run. rewrite Hs. reflexivity.
Qed.

Lemma run_raised context items e st :
  stream (user_input context) (context_id (task_for context)) = (items, Some e) ->
  run stream new_task missing_fields context st
  = (Store (_initialized st) (event_queue st ++ task_events context),
     Raise (refused (task_for context)
              ("Playwright agent execution failed: " +:+ exn_str e))).
Proof.
  intros Hs. unfold run. cbv zeta.
  erewrite bind_ok by apply task_of_run. rewrite Hs.
  unfold Eff.try_except, Eff.bind. rewrite async_for_raises. reflexivity.
Qed.

(** [execute] once the initialisation is behind it. *)
Lemma execute_initialised context st :
  _initialized st = true ∨ initialize_playwright = Ok tt ->
  execute context st
  = run stream new_task missing_fields context (Store true (event_queue st)).
Proof.
  intros Hinit. unfold SemanticKernelMCPAgentExecutor.execute, Eff.bind, Eff.gets.
  destruct st as [i q]. simpl. destruct i; simpl; [reflexivity|].
  destruct Hinit as [Hi| ->]; [discriminate|]. reflexivity.
Qed.

Lemma execute_init_raised context st e :
  _initialized st = false ->
  initialize_playwright = Raise e ->
  execute context st
  = (Store false (event_queue st ++ task_events context),
     Raise (refused (task_for context)
              ("Failed to initialize Playwright agent: " +:+ exn_str e))).
Proof.
  intros Hi He. unfold SemanticKernelMCPAgentExecutor.execute, Eff.bind, Eff.gets.
  destruct st as [i q]. simpl in Hi. subst i. simpl. rewrite He.
  unfold Eff.try_except, Eff.bind, Eff.lift. simpl.
  rewrite task_of_run. reflexivity.
Qed.

(** C10, on the code as it is: with a stream that yields nothing the
    failed path is taken (reading [require_input] raises
    UnboundLocalError, which the handler catches), but no FAILED status
    is enqueued.  The handler builds its status update from the status
    and the task id alone, without the [final] and [context_id] that the
    other three status updates of [execute] pass; the framework refuses
    it, and that exception leaves [execute], the queue holding at most
    the new task. *)
Theorem execute_empty_stream_raises context st :
  _initialized st = true ∨ initialize_playwright = Ok tt ->
  stream (user_input context) (context_id (task_for context)) = ([], None) ->
  execute context st
  = (Store true (event_queue st ++ task_events context),
     Raise (refused (task_for context)
              ("Playwright agent execution failed: " +:+ unbound_text))).
Proof.
  intros Hinit Hs. rewrite (execute_initialised context st Hinit).
  rewrite (run_empty context _ Hs). reflexivity.
Qed.

End PlaywrightFacts.

Section PlaywrightInstances.

Import SemanticKernelMCPAgentExecutor.

Definition asking : Partial :=
  {| require_user_input := true; is_task_complete := false; content := "Which page?" |}.

Definition finished : Partial :=
  {| require_user_input := false; is_task_complete := true; content := "Done." |}.

Definition demo_task : Task := {| id := "task-1"; context_id := "ctx-1" |}.

Definition demo_context : RequestContext :=
  {| user_input := "open the page"; current_task := None; request_message := "open the page" |}.

(** A framework whose refusal names the two missing fields. *)
Definition demo_refusal (status : TaskStatus) (task_id : string) : exn :=
  Exn "ValidationError" "2 validation errors for TaskStatusUpdateEvent".

Lemma execute_empty_stream_raises_witness :
  execute (Ok tt) (fun _ _ => ([], None)) (fun _ => demo_task) demo_refusal
    demo_context (Store false [])
  = (Store true ([] ++ task_events (fun _ => demo_task) demo_context),
     Raise (refused demo_refusal (task_for (fun _ => demo_task) demo_context)
              ("Playwright agent execution failed: " +:+ unbound_text))).
Proof.
  apply (execute_empty_stream_raises (Ok tt) (fun _ _ => ([], None))
           (fun _ => demo_task) demo_refusal demo_context (Store false [])).
  - right. reflexivity.
  - reflexivity.
Defined.

(** The run of the witness, written out: the new task is the only event,
    and the refusal leaves [execute]. *)
Example empty_stream_run :
  execute (Ok tt) (fun _ _ => ([], None)) (fun _ => demo_task) demo_refusal
    demo_context (Store false [])
  = (Store true [NewTask demo_task],
     Raise (Exn "ValidationError" "2 validation errors for TaskStatusUpdateEvent")).
Proof. reflexivity. Qed.

(** The items before the last leave no trace. *)
Example intermediate_items_ignored :
  execute (Ok tt) (fun _ _ => ([asking; finished], None))
    (fun _ => demo_task) demo_refusal demo_context (Store false [])
  = execute (Ok tt) (fun _ _ => ([finished], None))
      (fun _ => demo_task) demo_refusal demo_context (Store false []).
Proof. reflexivity. Qed.

End PlaywrightInstances.

(** ** [test_mcp_complete] *)

Section TestMcpCompleteFacts.

Import PyStr TestMcpComplete.

Variable w : world.

Definition init_request : request := POST mcp_url json_headers initialize_body.

(** The tools/list request that carries the session id under a header. *)
Definition tools_request (header_name session_id : string) : request :=
  POST mcp_url (<[header_name := session_id]> json_headers) tools_list_body.

Definition tools_outcome (header_name session_id : string) : result response :=
  http_post w mcp_url (<[header_name := session_id]> json_headers) tools_list_body.

(** The test the script makes on a tools/list response. *)
Definition success (r : response) : bool :=
  (status_code r =? 200) && negb (contains "error" (text r)).

(** The requests of the loop over the two header names. *)
Definition attempts (session_id : string) : list request :=
  match tools_outcome "mcp-session-id" session_id with
  | Ok first =>
      if success first then [tools_request "mcp-session-id" session_id]
      else [tools_request "mcp-session-id" session_id;
            tools_request "x-session-id" session_id]
  | Raise _ => [tools_request "mcp-session-id" session_id]
  end.

(** What the script sends after the initialize request. *)
Definition after_initialize : list request :=
  match http_post w mcp_url json_headers initialize_body with
  | Ok response =>
      match session_id_of (headers response) with
      | Some session_id => if bool_decide (session_id = "") then [] else attempts session_id
      | None => []
      end
  | Raise _ => []
  end.

Lemma session_id_of_mcp (hdrs : gmap string string) s :
  hdrs !! "mcp-session-id" = Some s -> s ≠ "" -> session_id_of hdrs = Some s.
Proof.
  intros H Hs. unfold session_id_of, py_or. rewrite H.
  rewrite bool_decide_eq_false_2 by exact Hs. reflexivity.
Qed.

Lemma session_id_of_x (hdrs : gmap string string) :
  hdrs !! "mcp-session-id" = None ∨ hdrs !! "mcp-session-id" = Some "" ->
  session_id_of hdrs = hdrs !! "x-session-id".
Proof. intros [H|H]; unfold session_id_of, py_or; rewrite H; reflexivity. Qed.

(** Once a response passes the test, no further request goes out. *)
Lemma after_success (m : result (option pyval)) (sent : list request) :
  fst (Eff.bind (Eff.lift m)
         (fun found => match found with
                       | Some tools => Eff.ret tools
                       | None => Eff.ret PNone
                       end) sent) = sent.
Proof. destruct m as [[tools|]|e]; reflexivity. Qed.

Lemma try_headers_last session_id sent :
  fst (try_headers w ["x-session-id"] session_id sent)
  = sent ++ [tools_request "x-session-id" session_id].
Proof.
  unfold try_headers, Eff.bind, client_post, tools_request.
  destruct (http_post w _ _ _) as [r|e]; [|reflexivity].
  destruct (_ && _); [|reflexivity].
  destruct (contains "event: message" (text r)); [|reflexivity].
  apply after_success.
Qed.

Lemma try_headers_both session_id sent :
  fst (try_headers w ["mcp-session-id"; "x-session-id"] session_id sent)
  = sent ++ attempts session_id.
Proof.
  unfold attempts, tools_outcome.
  change (try_headers w ["mcp-session-id"; "x-session-id"] session_id)
    with (tools_response <~ client_post w mcp_url
                              (<["mcp-session-id" := session_id]> json_headers)
                              tools_list_body ;;
          if (status_code tools_response =? 200)
             && negb (contains "error" (text tools_response)) then
            if contains "event: message" (text tools_response) then
              found <~ Eff.lift (scan_lines w (split_on "010"%char (text tools_response))) ;;
              match found with
              | Some tools => Eff.ret tools
              | None => Eff.ret PNone
              end
            else Eff.ret PNone
          else try_headers w ["x-session-id"] session_id).
  unfold Eff.bind at 1. unfold client_post, success, tools_request.
  destruct (http_post w mcp_url (<["mcp-session-id" := session_id]> json_headers)
              tools_list_body) as [r|e]; [|reflexivity].
  destruct (_ && _).
  - destruct (contains "event: message" (text r)); [|reflexivity].
    apply after_success.
  - rewrite try_headers_last. rewrite <- app_assoc. reflexivity.
Qed.

(** C7, as amended.  The script always sends the initialize request
    first.  The session id is the value of the [mcp-session-id] header
    when that header is there and not empty, and otherwise the value of
    the [x-session-id] header.  When the initialize request raises, or no
    session id is found, or the one found is empty, nothing more is sent.
    Otherwise tools/list is sent under [mcp-session-id]; it is sent once
    more, under [x-session-id], only when the first attempt came back
    with a response that fails the test (a status other than 200, or the
    word error in the body); a first attempt that raises ends the script. *)
Theorem test_mcp_complete_requests sent :
  (∃ v, test_mcp_complete w sent = (sent ++ init_request :: after_initialize, Ok v))
  ∧ (∀ (hdrs : gmap string string) s,
       hdrs !! "mcp-session-id" = Some s -> s ≠ "" -> session_id_of hdrs = Some s)
  ∧ (∀ hdrs : gmap string string,
       hdrs !! "mcp-session-id" = None ∨ hdrs !! "mcp-session-id" = Some "" ->
       session_id_of hdrs = hdrs !! "x-session-id").
Proof.
  split; [|split; [apply session_id_of_mcp | apply session_id_of_x]].
  unfold test_mcp_complete, after_initialize, init_request,
    Eff.try_except, Eff.bind, client_post.
  destruct (http_post w mcp_url json_headers initialize_body) as [response|e];
    [|eexists; reflexivity].
  destruct (session_id_of (headers response)) as [session_id|];
    [|eexists; reflexivity].
  destruct (bool_decide (session_id = "")); [eexists; reflexivity|].
  pose proof (try_headers_both session_id (sent ++ [init_request])) as H.
  unfold init_request in H.
  destruct (try_headers w _ session_id _) as [sent' [v|e]]; simpl in *;
    rewrite H, <- app_assoc; eexists; reflexivity.
Qed.

End TestMcpCompleteFacts.

Section TestMcpCompleteInstances.

Import PyStr TestMcpComplete Fixture.

(** A peer that answers the initialize request with the headers [hdrs]
    and a tools/list request by the header that carries the session id. *)
Definition handshake_peer (hdrs : gmap string string)
    (under_mcp under_x : result response) : world :=
  {| http_get := fun _ => Ok (Response 200 "" ∅);
     http_post := fun _ h _ =>
       match h !! "mcp-session-id", h !! "x-session-id" with
       | Some _, _ => under_mcp
       | None, Some _ => under_x
       | None, None => Ok (Response 200 "" hdrs)
       end;
     now_isoformat := "2025-01-01T00:00:00";
     int_max_str_digits := 4300;
     repr := show;
     json_loads := fun _ => Raise (Exn "JSONDecodeError" "Expecting value: line 1 column 1 (char 0)") |}.

Definition rejected : result response := Ok (Response 400 "Bad Request" ∅).
Definition accepted : result response := Ok (Response 200 "{}" ∅).

(** C7, as first stated, fails: the [mcp-session-id] header is there,
    with an empty value, and the script stops without a tools/list
    request; and with both headers there, the first one empty, the
    session id is the value of the second. *)
Lemma test_mcp_complete_counterexample :
  ({[ "mcp-session-id" := "" ]} : gmap string string) !! "mcp-session-id" = Some ""
  ∧ fst (test_mcp_complete (handshake_peer {[ "mcp-session-id" := "" ]} accepted accepted) [])
    = [init_request]
  ∧ session_id_of {[ "mcp-session-id" := ""; "x-session-id" := "abc" ]} = Some "abc".
Proof. repeat split; reflexivity. Qed.

Example retry_under_x :
  fst (test_mcp_complete (handshake_peer {[ "x-session-id" := "s1" ]} rejected accepted) [])
  = [init_request; tools_request "mcp-session-id" "s1"; tools_request "x-session-id" "s1"].
Proof. reflexivity. Qed.

Example stop_at_first_success :
  fst (test_mcp_complete (handshake_peer {[ "mcp-session-id" := "s1" ]} accepted accepted) [])
  = [init_request; tools_request "mcp-session-id" "s1"].
Proof. reflexivity. Qed.

Example stop_at_exception :
  fst (test_mcp_complete
         (handshake_peer {[ "mcp-session-id" := "s1" ]}
            (Raise (Exn "ReadTimeout" "")) accepted) [])
  = [init_request; tools_request "mcp-session-id" "s1"].
Proof. reflexivity. Qed.

End TestMcpCompleteInstances.

Section CosmosExecutorInstances.

Import CosmosQueryAgentExecutor Fixture.

(** An agent whose [process_query] raises. *)
Definition broken_agent : agent_api unit :=
  {| agent_initialize := Eff.ret true;
     agent_process_query := fun _ => Eff.raise (Exn "RuntimeError" "boom") |}.

(** An agent whose [initialize] returns [False]. *)
Definition refusing_agent : agent_api unit :=
  {| agent_initialize := Eff.ret false;
     agent_process_query := fun _ => Eff.ret PNone |}.

Definition demo_request : RequestContext :=
  {| current_task := Some {| id := "task-1"; context_id := "ctx-1" |};
     message := "how many documents" |}.

(** The executor with its own agent and a peer that answers: the health
    probe is sent, the flag is set, nothing is enqueued and the
    AttributeError leaves [execute]. *)
Example execute_cosmos :
  execute (cosmos_agent (peer 200 "body" (Ok (tool_text "7"))) agent) demo_request
    (Store false [] [])
  = (Store true [] [GET "http://127.0.0.1:8080/health"], Raise no_task_attribute).
Proof. reflexivity. Qed.

Example execute_refused :
  execute refusing_agent demo_request (Store false [] tt)
  = (Store false [] tt, Raise no_task_attribute).
Proof. reflexivity. Qed.

Example execute_broken :
  execute broken_agent demo_request (Store false [] tt)
  = (Store true [] tt, Raise no_task_attribute).
Proof. reflexivity. Qed.

End CosmosExecutorInstances.
(** ** The string functions on small inputs *)

Example lower_ex : PyStr.lower "Show ME 5 Containers" = "show me 5 containers".
Proof. reflexivity. Qed.

Example split_ex : PyStr.split "  the  actions container " = ["the"; "actions"; "container"].
Proof. reflexivity. Qed.

Example findall_ex : PyStr.findall_digits "top 007 of 12" = ["007"; "12"].
Proof. reflexivity. Qed.

Example replace_ex :
  PyStr.replace "/mcp" "/health" "http://127.0.0.1:8080/mcp" = "http://127.0.0.1:8080/health".
Proof. reflexivity. Qed.

Example split_on_ex :
  PyStr.split_on "010"%char ("a" +:+ PyStr.nl +:+ PyStr.nl +:+ "b") = ["a"; ""; "b"].
Proof. reflexivity. Qed.


(** * Further properties *)

(** ** Substrings and words *)

Section StringFacts.

Import PyStr.

Lemma append_cons c a b : String c a +:+ b = String c (a +:+ b).
Proof. reflexivity. Qed.

Lemma startswith_app a b s : startswith (a +:+ b) s = true -> startswith a s = true.
Proof.
  revert s. induction a as [|c a IH]; intros s; [reflexivity|].
  rewrite append_cons. destruct s as [|d s]; simpl; [discriminate|].
  intros H. apply andb_true_iff in H as [-> H]. simpl. apply IH. exact H.
Qed.

(** A string that contains [a] followed by [b] contains [a]. *)
Lemma contains_app a b s : contains (a +:+ b) s = true -> contains a s = true.
Proof.
  induction s as [|d s IH]; simpl.
  - apply startswith_app.
  - intros H. apply orb_true_iff in H as [H|H].
    + rewrite (startswith_app a b _ H). reflexivity.
    + rewrite (IH H). apply orb_true_r.
Qed.

Lemma rev_app_nonempty a b : b ≠ "" -> String.rev_app a b ≠ "".
Proof.
  revert b. induction a as [|c a IH]; intros b Hb; simpl; [exact Hb|].
  apply IH. discriminate.
Qed.

Lemma rev_nonempty a : a ≠ "" -> String.rev a ≠ "".
Proof.
  destruct a as [|c a]; [congruence|]. intros _.
  apply (rev_app_nonempty a (String c "")). discriminate.
Qed.

Lemma runs_go_nonempty keep cur s :
  (∀ acc, cur = Some acc -> acc ≠ "") ->
  Forall (fun word => word ≠ "") (runs_go keep cur s).
Proof.
  revert cur. induction s as [|c t IH]; intros cur Hcur; simpl.
  - destruct cur as [acc|]; simpl; [|constructor].
    constructor; [|constructor]. apply rev_nonempty. apply Hcur. reflexivity.
  - destruct (keep c).
    + apply IH. intros acc [= <-]. discriminate.
    + apply Forall_app. split.
      * destruct cur as [acc|]; simpl; [|constructor].
        constructor; [|constructor]. apply rev_nonempty. apply Hcur. reflexivity.
      * apply IH. discriminate.
Qed.

(** [split] yields no empty word. *)
Lemma split_nonempty s : Forall (fun word => word ≠ "") (split s).
Proof. apply runs_go_nonempty. discriminate. Qed.

(** Replacing a string that does not occur changes nothing. *)
Lemma replace_absent old new s : contains old s = false -> replace old new s = s.
Proof.
  unfold replace. induction s as [|c t IH]; simpl; [reflexivity|].
  intros H. apply orb_false_iff in H as [H1 H2].
  destruct old as [|o old]; [discriminate|].
  simpl in H1. simpl. rewrite H1. rewrite IH by exact H2. reflexivity.
Qed.

Lemma append_assoc a b c : (a +:+ b) +:+ c = a +:+ (b +:+ c).
Proof. induction a as [|x a IH]; [reflexivity|]. rewrite !append_cons, IH. reflexivity. Qed.

Lemma append_empty_r a : a +:+ "" = a.
Proof. induction a as [|x a IH]; [reflexivity|]. rewrite append_cons, IH. reflexivity. Qed.

Lemma rev_app_append a b : String.rev_app a b = String.rev a +:+ b.
Proof.
  revert b. induction a as [|x a IH]; intros b; [reflexivity|].
  unfold String.rev. simpl. rewrite (IH (String x b)), (IH (String x "")).
  rewrite append_assoc. reflexivity.
Qed.

Lemma rev_cons x a : String.rev (String x a) = String.rev a +:+ String x "".
Proof. unfold String.rev at 1. simpl. apply rev_app_append. Qed.

Lemma lower_app a b : lower (a +:+ b) = lower a +:+ lower b.
Proof. induction a as [|x a IH]; [reflexivity|]. rewrite append_cons. simpl. rewrite IH. reflexivity. Qed.

Lemma startswith_self a b : startswith a (a +:+ b) = true.
Proof.
  induction a as [|x a IH]; [reflexivity|]. rewrite append_cons. simpl.
  rewrite bool_decide_eq_true_2 by reflexivity. exact IH.
Qed.

Lemma startswith_contains a s : startswith a s = true -> contains a s = true.
Proof. destruct s; simpl; intros ->; reflexivity. Qed.

(** A string contains each of its substrings. *)
Lemma contains_middle pre a post : contains a (pre +:+ a +:+ post) = true.
Proof.
  induction pre as [|x pre IH].
  - change ("" +:+ a +:+ post) with (a +:+ post).
    apply startswith_contains, startswith_self.
  - rewrite append_cons. simpl. rewrite IH. apply orb_true_r.
Qed.

(** Every run is a substring of the text that was read. *)
Lemma runs_go_substring keep cur s word :
  In word (runs_go keep cur s) ->
  ∃ pre post, String.rev (default "" cur) +:+ s = pre +:+ word +:+ post.
Proof.
  revert cur. induction s as [|c t IH]; intros cur; simpl.
  - destruct cur as [acc|]; simpl; [|intros []].
    intros [<-|[]]. exists "", "". rewrite !append_empty_r. reflexivity.
  - destruct (keep c).
    + intros H. destruct (IH _ H) as (pre & post & Heq). exists pre, post.
      rewrite <- Heq. unfold push. simpl default. rewrite rev_cons, append_assoc.
      reflexivity.
    + intros H. apply in_app_or in H as [H|H].
      * destruct cur as [acc|]; simpl in H; [|destruct H].
        destruct H as [<-|[]]. exists "", (String c t). reflexivity.
      * destruct (IH _ H) as (pre & post & Heq).
        change (String.rev (default "" None) +:+ t) with t in Heq.
        exists (String.rev (default "" cur) +:+ String c pre), post.
        rewrite append_assoc, append_cons, <- Heq. reflexivity.
Qed.

(** The lower-case form of a word of a string is in the lower-case form
    of the string. *)
Lemma word_in_lower s word :
  In word (split s) -> contains (lower word) (lower s) = true.
Proof.
  intros H. apply runs_go_substring in H as (pre & post & Heq).
  change (String.rev (default "" None) +:+ s) with s in Heq. rewrite Heq, !lower_app.
  apply contains_middle.
Qed.

End StringFacts.

(** ** More of [process_query] *)

Section ProcessQueryMore.

Import PyStr CosmosQueryAgent Dispatch.

Variable w : world.
Variable self : t.

Ltac branch E :=
  match goal with
  | |- context [if ?c then _ else _] => destruct c eqn:E; cbv iota
  end.

Lemma process_query_run_shape query sent :
  ∃ sent' v,
    process_query w self query sent = (sent', Ok v)
    ∧ (sent' = sent ∨ ∃ tool_name arguments,
                         sent' = sent ++ [tool_request w self tool_name arguments])
    ∧ (if any_in kw_list (lower query)
          && negb (contains "container" (lower query)
                   || contains "collection" (lower query))
       then v = PNone
       else ∃ s, v = PStr s).
Proof.
  unfold process_query. cbv zeta.
  branch E1.
  { branch G; simpl.
    - unfold list_containers. rewrite labelled_call.
      eexists _, _. split; [reflexivity|]. split; [right; eauto|]. eexists; reflexivity.
    - eexists _, _. split; [reflexivity|]. auto. }
  simpl andb.
  branch E2.
  { unfold describe_container. rewrite labelled_call.
    eexists _, _. split; [reflexivity|]. split; [right; eauto|]. eexists; reflexivity. }
  branch E3.
  { rewrite sample_branch. destruct (int_refused w query).
    - eexists _, _. split; [reflexivity|]. split; [left; reflexivity|]. eexists; reflexivity.
    - unfold get_sample_documents. rewrite labelled_call.
      eexists _, _. split; [reflexivity|]. split; [right; eauto|]. eexists; reflexivity. }
  branch E4.
  { unfold count_documents. rewrite labelled_call.
    eexists _, _. split; [reflexivity|]. split; [right; eauto|]. eexists; reflexivity. }
  branch E5.
  { unfold get_partition_key_info. rewrite labelled_call.
    eexists _, _. split; [reflexivity|]. split; [right; eauto|]. eexists; reflexivity. }
  branch E6.
  { unfold get_indexing_policy. rewrite labelled_call.
    eexists _, _. split; [reflexivity|]. split; [right; eauto|]. eexists; reflexivity. }
  branch E7.
  { unfold find_implied_links. rewrite labelled_call.
    eexists _, _. split; [reflexivity|]. split; [right; eauto|]. eexists; reflexivity. }
  branch E8.
  { unfold query_cosmos_db. rewrite labelled_call.
    eexists _, _. split; [reflexivity|]. split; [right; eauto|]. eexists; reflexivity. }
  branch E9.
  { unfold query_cosmos_db. rewrite labelled_call.
    eexists _, _. split; [reflexivity|]. split; [right; eauto|]. eexists; reflexivity. }
  eexists _, _. split; [reflexivity|]. split; [left; reflexivity|]. eexists; reflexivity.
Qed.

(** X1.  [process_query] never raises and sends at most one request, a
    tool call.  It returns a string, except that it returns [None] exactly
    when the lower-cased query has a keyword of the list group but neither
    [container] nor [collection]. *)
Theorem process_query_shape query sent :
  ∃ sent' v,
    process_query w self query sent = (sent', Ok v)
    ∧ (sent' = sent ∨ ∃ tool_name arguments,
                         sent' = sent ++ [tool_request w self tool_name arguments])
    ∧ (if any_in kw_list (lower query)
          && negb (contains "container" (lower query)
                   || contains "collection" (lower query))
       then v = PNone
       else ∃ s, v = PStr s).
Proof. apply process_query_run_shape. Qed.

(** X2.  The keyword [show me] of the sample branch never decides: a
    query whose lower-case form has it in it is taken by the list branch,
    which either calls [list_collections] or returns [None] without a
    call.  The sample tool is not called for it. *)
Theorem show_me_never_samples query sent :
  contains "show me" (lower query) = true ->
  process_query w self query sent = (sent, Ok PNone)
  ∨ ∃ result,
      list_containers w self sent
      = (sent ++ [tool_request w self "list_collections" ∅], Ok result)
      ∧ process_query w self query sent
        = (sent ++ [tool_request w self "list_collections" ∅],
           Ok (PStr ("Available containers in the database:" +:+ nl
                     +:+ py_str w result))).
Proof.
  intros H.
  assert (Hlist : any_in kw_list (lower query) = true).
  { unfold any_in, kw_list. simpl.
    rewrite (contains_app "show" " me" _ H). apply orb_true_r. }
  unfold process_query. cbv zeta. rewrite Hlist.
  branch G; [right | left; reflexivity].
  eexists. split.
  - unfold list_containers. apply call_mcp_tool_run.
  - unfold list_containers. rewrite labelled_call. reflexivity.
Qed.

(** X3.  A query that names containers or collections in the plural
    always gets the list of containers: the second test of the list
    branch cannot fail for it. *)
Theorem plural_lists_containers query sent :
  contains "containers" (lower query) || contains "collections" (lower query) = true ->
  ∃ result,
    list_containers w self sent
    = (sent ++ [tool_request w self "list_collections" ∅], Ok result)
    ∧ process_query w self query sent
      = (sent ++ [tool_request w self "list_collections" ∅],
         Ok (PStr ("Available containers in the database:" +:+ nl
                   +:+ py_str w result))).
Proof.
  intros H.
  assert (Hlist : any_in kw_list (lower query) = true).
  { unfold any_in, kw_list. simpl.
    apply orb_true_iff in H as [H|H]; rewrite H;
      repeat (rewrite ?orb_true_r, ?orb_true_l); reflexivity. }
  assert (Hguard : contains "container" (lower query)
                   || contains "collection" (lower query) = true).
  { apply orb_true_iff in H as [H|H].
    - rewrite (contains_app "container" "s" _ H). reflexivity.
    - rewrite (contains_app "collection" "s" _ H). apply orb_true_r. }
  unfold process_query. cbv zeta. rewrite Hlist, Hguard.
  eexists. split.
  - unfold list_containers. apply call_mcp_tool_run.
  - unfold list_containers. rewrite labelled_call. reflexivity.
Qed.

Lemma word_after_container_found pre word n post :
  Forall (fun x => lower x ≠ "container") pre ->
  lower word = "container" ->
  word_after_container (pre ++ word :: n :: post) = Some n.
Proof.
  intros Hpre Hword. induction Hpre as [|x pre Hx _ IH]; simpl.
  - rewrite bool_decide_eq_true_2 by exact Hword. reflexivity.
  - rewrite bool_decide_eq_false_2 by exact Hx. exact IH.
Qed.

(** What the describe branch sends once the container name is known. *)
Lemma describe_branch query container_name sent :
  any_in kw_list (lower query) = false ->
  any_in kw_describe (lower query) = true ->
  (if contains "actions" (lower query) then Some "actions"
   else if contains "container" (lower query) then word_after_container (split query)
        else None) = container_name ->
  process_query w self query sent
  = (sent ++ [tool_request w self "describe_container" (container_args container_name)],
     Ok (labelled w "Container schema information:"
           (tool_value w self "describe_container" (container_args container_name)))).
Proof.
  intros H1 H2 Hn. unfold process_query. cbv zeta. rewrite H1, H2. cbv iota.
  rewrite Hn. unfold describe_container. rewrite labelled_call. reflexivity.
Qed.

(** X4.  In the describe branch, a query without [actions] in it whose
    words (as [split] gives them) have a word equal to [container], case
    ignored, followed by another word, gets [describe_container] called
    for the word after the first such word, in the spelling of the query. *)
Theorem describe_names_container query sent pre word n post :
  any_in kw_list (lower query) = false ->
  any_in kw_describe (lower query) = true ->
  contains "actions" (lower query) = false ->
  split query = pre ++ word :: n :: post ->
  Forall (fun x => lower x ≠ "container") pre ->
  lower word = "container" ->
  fst (process_query w self query sent)
  = sent ++ [tool_request w self "describe_container" {[ "container_name" := PStr n ]}].
Proof.
  intros H1 H2 Ha Hsplit Hpre Hword.
  assert (Hc : contains "container" (lower query) = true).
  { rewrite <- Hword. apply word_in_lower. rewrite Hsplit.
    apply in_or_app. right. left. reflexivity. }
  assert (Hn : n ≠ "").
  { pose proof (split_nonempty query) as Hne. rewrite Hsplit in Hne.
    apply Forall_app in Hne as [_ Hne].
    apply Forall_cons in Hne as [_ Hne]. apply Forall_cons in Hne as [Hne _].
    exact Hne. }
  rewrite (describe_branch query (Some n) sent H1 H2).
  - simpl. rewrite bool_decide_eq_false_2 by exact Hn. reflexivity.
  - rewrite Ha, Hc, Hsplit. apply word_after_container_found; assumption.
Qed.

(** X5.  In the describe branch, [actions] anywhere in the lower-cased
    query wins: the container described is [actions], whatever word
    follows [container]. *)
Theorem describe_prefers_actions query sent :
  any_in kw_list (lower query) = false ->
  any_in kw_describe (lower query) = true ->
  contains "actions" (lower query) = true ->
  fst (process_query w self query sent)
  = sent ++ [tool_request w self "describe_container"
               {[ "container_name" := PStr "actions" ]}].
Proof.
  intros H1 H2 Ha.
  rewrite (describe_branch query (Some "actions") sent H1 H2).
  - reflexivity.
  - rewrite Ha. reflexivity.
Qed.

Lemma leading_digits_value acc s : 0 ≤ acc -> 0 ≤ digits_value acc (leading_digits s).
Proof.
  revert acc. induction s as [|c t IH]; intros acc Hacc; simpl; [exact Hacc|].
  destruct (is_digit c) eqn:Hc; simpl; [|exact Hacc].
  apply IH. unfold is_digit, in_range in Hc. unfold digit_value.
  apply andb_true_iff in Hc as [Hlo _]. apply N.leb_le in Hlo. lia.
Qed.

Lemma first_digit_sequence_value s : 0 ≤ digits_value 0 (first_digit_sequence s).
Proof.
  induction s as [|c t IH]; simpl; [lia|].
  destruct (is_digit c) eqn:Hc; [|exact IH].
  pose proof (leading_digits_value 0 (String c t)) as H. simpl in H.
  rewrite Hc in H. apply H. lia.
Qed.

Lemma sample_limit_range query : 0 ≤ sample_limit query ≤ 10.
Proof.
  unfold sample_limit. destruct (has_digit query); [|lia].
  pose proof (first_digit_sequence_value query). lia.
Qed.

Lemma container_args_actions query_lower :
  container_args (actions_if_mentioned query_lower) !! "container_name"
  = if contains "actions" query_lower then Some (PStr "actions") else None.
Proof. unfold actions_if_mentioned. destruct (contains "actions" query_lower); reflexivity. Qed.

(** X6.  In the sample branch (when [int] accepts the digits) the one
    request calls [get_sample_documents]; its [limit] argument is the
    limit of the query, between 0 and 10, and is left out when that limit
    is 5; its [container_name] argument is [actions] when the lower-cased
    query has [actions] in it and is left out otherwise. *)
Theorem sample_request_arguments query sent :
  any_in kw_list (lower query) = false ->
  any_in kw_describe (lower query) = false ->
  any_in kw_sample (lower query) = true ->
  int_refused w query = false ->
  ∃ arguments,
    fst (process_query w self query sent)
    = sent ++ [tool_request w self "get_sample_documents" arguments]
    ∧ arguments !! "limit"
      = (if bool_decide (sample_limit query = 5) then None
         else Some (PInt (sample_limit query)))
    ∧ arguments !! "container_name"
      = (if contains "actions" (lower query) then Some (PStr "actions") else None)
    ∧ 0 ≤ sample_limit query ≤ 10.
Proof.
  intros H1 H2 H3 Hint. unfold process_query. cbv zeta. rewrite H1, H2, H3. cbv iota.
  rewrite sample_branch, Hint. unfold get_sample_documents. cbv zeta.
  rewrite labelled_call. eexists. split; [reflexivity|]. simpl default.
  split; [|split; [|apply sample_limit_range]].
  - destruct (decide (sample_limit query = 5)) as [Heq|Hne].
    + rewrite (bool_decide_eq_false_2 _ (fun H => H Heq)).
      rewrite (bool_decide_eq_true_2 _ Heq). apply container_args_no_limit.
    + rewrite (bool_decide_eq_true_2 _ Hne), (bool_decide_eq_false_2 _ Hne).
      apply lookup_insert_eq.
  - destruct (bool_decide (sample_limit query ≠ 5)).
    + rewrite lookup_insert_ne by done. apply container_args_actions.
    + apply container_args_actions.
Qed.

Lemma leading_digits_app d rest :
  leading_digits d = d -> leading_digits rest = "" -> leading_digits (d +:+ rest) = d.
Proof.
  induction d as [|c d IH]; intros Hd Hrest.
  - exact Hrest.
  - rewrite append_cons. simpl in *. destruct (is_digit c); [|discriminate].
    injection Hd as Hd. rewrite (IH Hd Hrest). reflexivity.
Qed.

(** A query made of text without a digit, a non-empty run of digits and
    text that does not start with a digit: the run is its first digit
    sequence. *)
Lemma first_number pre d rest :
  has_digit pre = false ->
  d ≠ "" ->
  leading_digits d = d ->
  leading_digits rest = "" ->
  has_digit (pre +:+ d +:+ rest) = true
  ∧ first_digit_sequence (pre +:+ d +:+ rest) = d.
Proof.
  intros Hpre Hd Hdig Hrest.
  induction pre as [|c pre IH].
  - change ("" +:+ d +:+ rest) with (d +:+ rest).
    destruct d as [|c d]; [congruence|]. rewrite append_cons.
    simpl in Hdig. simpl. destruct (is_digit c) eqn:Hc; [|discriminate].
    split; [reflexivity|]. injection Hdig as Hdig.
    rewrite (leading_digits_app d rest Hdig Hrest). reflexivity.
  - rewrite append_cons. simpl in Hpre. apply orb_false_iff in Hpre as [Hc Hpre].
    simpl. rewrite Hc. simpl. apply IH. exact Hpre.
Qed.

(** X7.  Only the first number of a query counts.  When a query that
    reaches the sample branch is some text without a digit, then a
    non-empty run of digits that [int] accepts, then text that does not
    start with a digit, that run is the first item [re.findall] finds,
    and [process_query] calls [get_sample_documents] with that run as a
    number, capped at 10, whatever numbers come later; what the call
    returned comes back after the line [Sample documents:]. *)
Theorem sample_limit_first_number query pre d rest sent :
  query = pre +:+ d +:+ rest ->
  has_digit pre = false ->
  d ≠ "" ->
  leading_digits d = d ->
  leading_digits rest = "" ->
  any_in kw_list (lower query) = false ->
  any_in kw_describe (lower query) = false ->
  any_in kw_sample (lower query) = true ->
  int_refused w query = false ->
  head (findall_digits query) = Some d
  ∧ ∃ sent' result,
      get_sample_documents w self (actions_if_mentioned (lower query))
        (Z.min (digits_value 0 d) 10) sent = (sent', Ok result)
      ∧ process_query w self query sent
        = (sent', Ok (labelled w "Sample documents:" result)).
Proof.
  intros Hq Hpre Hd Hdig Hrest H1 H2 H3 Hint.
  destruct (first_number pre d rest Hpre Hd Hdig Hrest) as [Hhas Hfirst].
  rewrite <- Hq in Hhas, Hfirst.
  assert (Hlimit : sample_limit query = Z.min (digits_value 0 d) 10).
  { unfold sample_limit. rewrite Hhas, Hfirst. reflexivity. }
  split.
  - pose proof (findall_digits_first query) as H.
    destruct (findall_digits query) as [|first others]; [congruence|].
    destruct H as [_ ->]. simpl. rewrite Hfirst. reflexivity.
  - rewrite <- Hlimit.
    destruct (get_sample_documents_run w self (actions_if_mentioned (lower query))
                (sample_limit query) sent (sample_limit_le query))
      as (r & result & Hrun & _).
    exists (sent ++ [r]), result. split; [exact Hrun|].
    unfold process_query. cbv zeta. rewrite H1, H2, H3. cbv iota.
    rewrite sample_branch, Hint.
    apply try_ok. erewrite bind_ok by exact Hrun. reflexivity.
Qed.

(** X8.  A query that matches none of the eight groups tested before and
    has a time_agent keyword has the one fixed SQL text sent to
    [query_cosmos], whatever else it says, and what the tool returned
    comes back after the line [Time Agent data:]. *)
Theorem time_agent_query_fixed query sent :
  Forall (fun g => matches (lower query) g = false)
    [GList; GDescribe; GSample; GCount; GPartition; GIndex; GLinks; GSelect] ->
  any_in kw_time (lower query) = true ->
  ∃ result,
    query_cosmos_db w self time_query sent
    = (sent ++ [tool_request w self "query_cosmos" {[ "query" := PStr time_query ]}],
       Ok result)
    ∧ process_query w self query sent
      = (sent ++ [tool_request w self "query_cosmos" {[ "query" := PStr time_query ]}],
         Ok (PStr ("Time Agent data:" +:+ nl +:+ py_str w result))).
Proof.
  intros Hnone Htime.
  repeat match goal with
         | H : Forall _ (_ :: _) |- _ => apply Forall_cons in H as [? H]
         end.
  exists (tool_value w self "query_cosmos" {[ "query" := PStr time_query ]}).
  split.
  - unfold query_cosmos_db. apply call_mcp_tool_run.
  - unfold process_query. cbv zeta. cbn [matches] in *.
    repeat match goal with
           | H : _ = false |- _ => rewrite H; clear H
           end.
    rewrite Htime. unfold query_cosmos_db. rewrite labelled_call. reflexivity.
Qed.

(** X9.  A 200 response whose body is JSON of a shape the code does not
    expect still gives a text: an object with neither [result] nor [error]
    gives [Unknown response format]; null, a boolean or a number gives
    the text of the TypeError of the [in] test; a [result] that is no
    object gives the text of the AttributeError of [.get]; an empty
    content list gives the text of the IndexError. *)
Theorem call_mcp_tool_odd_shapes tool_name arguments sent resp j :
  tool_outcome w self tool_name (default ∅ arguments) = Ok resp ->
  status_code resp = 200 ->
  json_loads w (text resp) = Ok j ->
  (∀ d, j = PDict d -> d !! "result" = None -> d !! "error" = None ->
     snd (_call_mcp_tool w self tool_name arguments sent)
     = Ok (PStr "Unknown response format"))
  ∧ (j = PNone ∨ (∃ b, j = PBool b) ∨ (∃ n, j = PInt n) ∨ (∃ f, j = PFloat f) ->
     snd (_call_mcp_tool w self tool_name arguments sent)
     = Ok (PStr ("Error calling tool: argument of type '" +:+ Py.type_name j
                 +:+ "' is not iterable")))
  ∧ (∀ d r, j = PDict d -> d !! "result" = Some r -> (∀ x, r ≠ PDict x) ->
     snd (_call_mcp_tool w self tool_name arguments sent)
     = Ok (PStr ("Error calling tool: '" +:+ Py.type_name r
                 +:+ "' object has no attribute 'get'")))
  ∧ (∀ d r, j = PDict d -> d !! "result" = Some (PDict r) ->
     r !! "content" = Some (PList []) ->
     snd (_call_mcp_tool w self tool_name arguments sent)
     = Ok (PStr "Error calling tool: list index out of range")).
Proof.
  intros Hout H200 Hj. rewrite call_mcp_tool_run. simpl snd.
  unfold tool_value. rewrite Hout. simpl. rewrite response_value_200 by exact H200.
  rewrite Hj. simpl. repeat split.
  - intros d -> Hr He. simpl. rewrite Hr, He. reflexivity.
  - intros [->|[[b ->]|[[n ->]|[f ->]]]]; reflexivity.
  - intros d r -> Hr Hnot. simpl. rewrite Hr. simpl.
    destruct r; try reflexivity. exfalso. eapply Hnot. reflexivity.
  - intros d r -> Hr Hc. simpl. rewrite Hr. simpl. rewrite Hc. reflexivity.
Qed.

Lemma no_early_match c x b :
  startswith "/mcp" (String c x +:+ "/mc") = false ->
  startswith "/mcp" (String c x +:+ "/mcp" +:+ b) = false.
Proof.
  destruct x as [|c2 [|c3 [|c4 x]]]; rewrite !append_cons; simpl;
    repeat case_bool_decide; simpl; congruence.
Qed.

Lemma replace_first_occurrence a b :
  contains "/mcp" (a +:+ "/mc") = false ->
  replace "/mcp" "/health" (a +:+ "/mcp" +:+ b)
  = a +:+ "/health" +:+ replace "/mcp" "/health" b.
Proof.
  unfold replace. induction a as [|c a IH]; intros H.
  - reflexivity.
  - rewrite append_cons in H. simpl in H.
    apply orb_false_iff in H as [H1 H2].
    change (startswith "/mcp" (String c (a +:+ "/mc")))
      with (startswith "/mcp" (String c a +:+ "/mc")) in H1.
    pose proof (no_early_match c a b H1) as H3.
    change (String c a +:+ "/mcp" +:+ b) with (String c (a +:+ "/mcp" +:+ b)) in *.
    change (String c a +:+ "/health" +:+ replace_go "/mcp" "/health" 0 b)
      with (String c (a +:+ "/health" +:+ replace_go "/mcp" "/health" 0 b)).
    cbn [replace_go]. rewrite H3. rewrite (IH H2). reflexivity.
Qed.

(** X10.  When the configured URL has no [/mcp] in it, the health probe
    of [initialize] goes to the MCP URL itself. *)
Theorem health_probe_without_mcp sent :
  contains "/mcp" (mcp_server_url self) = false ->
  initialize w self sent = (sent ++ [GET (mcp_server_url self)], Ok true).
Proof.
  intros H. rewrite initialize_run. unfold health_url.
  rewrite replace_absent by exact H. reflexivity.
Qed.

(** X11.  The health URL is made by replacing every [/mcp], not only the
    path at the end: the text up to the first [/mcp] is kept, [/health]
    is put for it, and the rest is rewritten in the same way.  So a host
    name that starts with [mcp] is rewritten too. *)
Theorem health_probe_replaces_each a b sent :
  mcp_server_url self = a +:+ "/mcp" +:+ b ->
  contains "/mcp" (a +:+ "/mc") = false ->
  initialize w self sent
  = (sent ++ [GET (a +:+ "/health" +:+ replace "/mcp" "/health" b)], Ok true).
Proof.
  intros Hurl H. rewrite initialize_run. unfold health_url.
  rewrite Hurl, replace_first_occurrence by exact H. reflexivity.
Qed.

End ProcessQueryMore.

Section AgentExtrasInstances.

Import PyStr CosmosQueryAgent Dispatch Fixture.

Lemma show_me_never_samples_witness :
  process_query rows_peer agent "Show me sample documents from actions" [] = ([], Ok PNone)
  ∨ ∃ result,
      list_containers rows_peer agent []
      = ([] ++ [tool_request rows_peer agent "list_collections" ∅], Ok result)
      ∧ process_query rows_peer agent "Show me sample documents from actions" []
        = ([] ++ [tool_request rows_peer agent "list_collections" ∅],
           Ok (PStr ("Available containers in the database:" +:+ nl
                     +:+ py_str rows_peer result))).
Proof.
  apply (show_me_never_samples rows_peer agent
           "Show me sample documents from actions" []).
  reflexivity.
Defined.

Lemma plural_lists_containers_witness :
  ∃ result,
    list_containers rows_peer agent []
    = ([] ++ [tool_request rows_peer agent "list_collections" ∅], Ok result)
    ∧ process_query rows_peer agent "Which COLLECTIONS are there?" []
      = ([] ++ [tool_request rows_peer agent "list_collections" ∅],
         Ok (PStr ("Available containers in the database:" +:+ nl
                   +:+ py_str rows_peer result))).
Proof.
  apply (plural_lists_containers rows_peer agent "Which COLLECTIONS are there?" []).
  reflexivity.
Defined.

Lemma describe_names_container_witness :
  fst (process_query rows_peer agent "Describe the Container Orders now" [])
  = [] ++ [tool_request rows_peer agent "describe_container"
             {[ "container_name" := PStr "Orders" ]}].
Proof.
  apply (describe_names_container rows_peer agent "Describe the Container Orders now" []
           ["Describe"; "the"] "Container" "Orders" ["now"]);
    try reflexivity.
  repeat (constructor; [intros H; vm_compute in H; discriminate H|]). constructor.
Defined.

Lemma describe_prefers_actions_witness :
  fst (process_query rows_peer agent "Describe container Orders, not actions" [])
  = [] ++ [tool_request rows_peer agent "describe_container"
             {[ "container_name" := PStr "actions" ]}].
Proof.
  apply (describe_prefers_actions rows_peer agent
           "Describe container Orders, not actions" []); reflexivity.
Defined.

Lemma sample_request_arguments_witness :
  ∃ arguments,
    fst (process_query rows_peer agent "preview 3 of the actions" [])
    = [] ++ [tool_request rows_peer agent "get_sample_documents" arguments]
    ∧ arguments !! "limit"
      = (if bool_decide (sample_limit "preview 3 of the actions" = 5) then None
         else Some (PInt (sample_limit "preview 3 of the actions")))
    ∧ arguments !! "container_name"
      = (if contains "actions" (lower "preview 3 of the actions")
         then Some (PStr "actions") else None)
    ∧ 0 ≤ sample_limit "preview 3 of the actions" ≤ 10.
Proof.
  apply (sample_request_arguments rows_peer agent "preview 3 of the actions" []);
    reflexivity.
Defined.

Lemma sample_limit_first_number_witness :
  head (findall_digits "sample 3 of the 40 documents") = Some "3"
  ∧ ∃ sent' result,
      get_sample_documents rows_peer agent
        (actions_if_mentioned (lower "sample 3 of the 40 documents"))
        (Z.min (digits_value 0 "3") 10) [] = (sent', Ok result)
      ∧ process_query rows_peer agent "sample 3 of the 40 documents" []
        = (sent', Ok (labelled rows_peer "Sample documents:" result)).
Proof.
  apply (sample_limit_first_number rows_peer agent "sample 3 of the 40 documents"
           "sample " "3" " of the 40 documents" []);
    [reflexivity | reflexivity | discriminate | reflexivity | reflexivity
    | reflexivity | reflexivity | reflexivity | reflexivity].
Defined.

(** That run, written out: the limit sent is 3, not 40. *)
Example first_number_request :
  process_query rows_peer agent "sample 3 of the 40 documents" []
  = ([tool_request rows_peer agent "get_sample_documents" {[ "limit" := PInt 3 ]}],
     Ok (PStr ("Sample documents:" +:+ nl +:+ "three rows"))).
Proof. reflexivity. Qed.

Lemma time_agent_query_fixed_witness :
  ∃ result,
    query_cosmos_db rows_peer agent time_query []
    = ([] ++ [tool_request rows_peer agent "query_cosmos" {[ "query" := PStr time_query ]}],
       Ok result)
    ∧ process_query rows_peer agent "latest TimeAgent runs" []
      = ([] ++ [tool_request rows_peer agent "query_cosmos"
                  {[ "query" := PStr time_query ]}],
         Ok (PStr ("Time Agent data:" +:+ nl +:+ py_str rows_peer result))).
Proof.
  apply (time_agent_query_fixed rows_peer agent "latest TimeAgent runs" []).
  - repeat (constructor; [reflexivity|]). constructor.
  - reflexivity.
Defined.

Lemma call_mcp_tool_odd_shapes_witness :
  (∀ d, empty_content = PDict d -> d !! "result" = None -> d !! "error" = None ->
     snd (_call_mcp_tool silent_peer agent "list_collections" None [])
     = Ok (PStr "Unknown response format"))
  ∧ (empty_content = PNone ∨ (∃ b, empty_content = PBool b)
     ∨ (∃ n, empty_content = PInt n) ∨ (∃ f, empty_content = PFloat f) ->
     snd (_call_mcp_tool silent_peer agent "list_collections" None [])
     = Ok (PStr ("Error calling tool: argument of type '" +:+ Py.type_name empty_content
                 +:+ "' is not iterable")))
  ∧ (∀ d r, empty_content = PDict d -> d !! "result" = Some r -> (∀ x, r ≠ PDict x) ->
     snd (_call_mcp_tool silent_peer agent "list_collections" None [])
     = Ok (PStr ("Error calling tool: '" +:+ Py.type_name r
                 +:+ "' object has no attribute 'get'")))
  ∧ (∀ d r, empty_content = PDict d -> d !! "result" = Some (PDict r) ->
     r !! "content" = Some (PList []) ->
     snd (_call_mcp_tool silent_peer agent "list_collections" None [])
     = Ok (PStr "Error calling tool: list index out of range")).
Proof.
  apply (call_mcp_tool_odd_shapes silent_peer agent "list_collections" None []
           (Response 200 "body" ∅) empty_content); reflexivity.
Defined.

(** An agent configured with a URL that has no [/mcp] in it, and one
    whose host name starts with [mcp]. *)
Definition bare_agent : t := Make "http://127.0.0.1:8080" "playwright_logs" "actions".
Definition mcp_host_agent : t := Make "http://mcp.example.com/mcp" "playwright_logs" "actions".

Lemma health_probe_without_mcp_witness :
  initialize rows_peer bare_agent [] = ([] ++ [GET (mcp_server_url bare_agent)], Ok true).
Proof. apply (health_probe_without_mcp rows_peer bare_agent []). reflexivity. Defined.

Lemma health_probe_replaces_each_witness :
  initialize rows_peer mcp_host_agent []
  = ([] ++ [GET ("http:/" +:+ "/health"
                 +:+ replace "/mcp" "/health" ".example.com/mcp")], Ok true).
Proof.
  apply (health_probe_replaces_each rows_peer mcp_host_agent "http:/" ".example.com/mcp" []);
    reflexivity.
Defined.

Example mcp_host_probe :
  fst (initialize rows_peer mcp_host_agent []) = [GET "http://health.example.com/health"].
Proof. reflexivity. Qed.

Example odd_shape_empty_content :
  snd (_call_mcp_tool silent_peer agent "list_collections" None [])
  = Ok (PStr "Error calling tool: list index out of range").
Proof. reflexivity. Qed.

End AgentExtrasInstances.

(** ** More of [SemanticKernelMCPAgentExecutor.execute] *)

Section PlaywrightMore.

Import SemanticKernelMCPAgentExecutor.

Variable initialize_playwright : result unit.
Variable stream : string -> string -> list Partial * option exn.
Variable new_task : string -> Task.
Variable missing_fields : TaskStatus -> string -> exn.

Abbreviation execute := (execute initialize_playwright stream new_task missing_fields).
Abbreviation task_for := (task_for new_task).
Abbreviation task_events := (task_events new_task).
Abbreviation refused := (refused missing_fields).

(** X16.  When the initialisation raises, [execute] enqueues the task if
    it had to create one and then raises: the failed status that the
    handler builds lacks [final] and [context_id], the framework refuses
    it, and no status is enqueued.  The stream is not read and the flag
    stays unset. *)
Theorem execute_initialisation_failed context st e :
  _initialized st = false ->
  initialize_playwright = Raise e ->
  execute context st
  = (Store false (event_queue st ++ task_events context),
     Raise (refused (task_for context)
              ("Failed to initialize Playwright agent: " +:+ exn_str e))).
Proof. apply execute_init_raised. Qed.

Lemma execute_raised_run context items e st :
  _initialized st = true ∨ initialize_playwright = Ok tt ->
  stream (user_input context) (context_id (task_for context)) = (items, Some e) ->
  execute context st
  = (Store true (event_queue st ++ task_events context),
     Raise (refused (task_for context)
              ("Playwright agent execution failed: " +:+ exn_str e))).
Proof.
  intros Hinit Hs. rewrite (execute_initialised _ _ _ _ context st Hinit).
  rewrite (run_raised _ _ _ context items e _ Hs). reflexivity.
Qed.

(** X17.  When the stream raises, after however many items, [execute]
    enqueues at most the new task and raises: what the items said is
    dropped, and the failed status of the handler, built without [final]
    and [context_id], is refused by the framework and never enqueued. *)
Theorem execute_stream_raised context items e st :
  _initialized st = true ∨ initialize_playwright = Ok tt ->
  stream (user_input context) (context_id (task_for context)) = (items, Some e) ->
  execute context st
  = (Store true (event_queue st ++ task_events context),
     Raise (refused (task_for context)
              ("Playwright agent execution failed: " +:+ exn_str e))).
Proof. apply execute_raised_run. Qed.

Lemma execute_exhausted_run context items p st :
  _initialized st = true ∨ initialize_playwright = Ok tt ->
  stream (user_input context) (context_id (task_for context)) = (items, None) ->
  last items = Some p ->
  execute context st
  = (Store true
       (event_queue st ++ task_events context
        ++ outcome_events (task_for context) p), Ok tt).
Proof.
  intros Hinit Hs Hlast. rewrite (execute_initialised _ _ _ _ context st Hinit).
  rewrite (run_exhausted _ _ _ context items p _ Hs Hlast). reflexivity.
Qed.

(** X25.  When the initialisation does not fail and the stream is
    exhausted after at least one item, the loop over the items leaves the
    queue as it was, and [execute] then adds, after the task if it had to
    create one, the one outcome that the last item decides (the
    input_required status; or the artifact and the completed status; or
    the working status) and returns.  The items before the last produce
    no event. *)
Theorem execute_reports_last_partial context items p st :
  _initialized st = true ∨ initialize_playwright = Ok tt ->
  stream (user_input context) (context_id (task_for context)) = (items, None) ->
  last items = Some p ->
  (∀ locals st1, fst (async_for items None locals st1) = st1)
  ∧ execute context st
    = (Store true
         (event_queue st ++ task_events context
          ++ outcome_events (task_for context) p), Ok tt).
Proof.
  intros Hinit Hs Hlast. split; [intros; apply async_for_store|].
  apply (execute_exhausted_run context items p st Hinit Hs Hlast).
Qed.

Definition is_status (e : Event) : bool :=
  match e with TaskStatusUpdateEvent _ _ _ _ => true | _ => false end.

Definition is_artifact (e : Event) : bool :=
  match e with TaskArtifactUpdateEvent _ _ _ _ _ => true | _ => false end.

Definition status_state (e : Event) : option TaskState.t :=
  match e with TaskStatusUpdateEvent s _ _ _ => Some (state s) | _ => None end.

Lemma outcome_shape task p :
  ∃ artifacts status,
    outcome_events task p = artifacts ++ [status]
    ∧ is_status status = true
    ∧ (artifacts = []
       ∨ ∃ a, artifacts = [a] ∧ is_artifact a = true
              ∧ status_state status = Some TaskState.completed).
Proof.
  unfold outcome_events. destruct p as [[|] [|] c]; simpl.
  - eexists [], _. split; [reflexivity|]. auto.
  - eexists [], _. split; [reflexivity|]. auto.
  - eexists [_], _. split; [reflexivity|]. split; [reflexivity|]. right. eauto.
  - eexists [], _. split; [reflexivity|]. auto.
Qed.

(** X18.  Every run of [execute] ends in one of two ways.  Either the
    initialisation did not fail and the stream was exhausted after at
    least one item: then [execute] returns, and what it added to the
    queue is the task, if it had to create one; then an artifact, only
    when the status that follows is the completed one; then exactly one
    status, which is last.  Or [execute] raises, and what it added is at
    most the new task: no status update reaches the queue when the
    initialisation fails, when the stream raises or when it yields
    nothing. *)
Theorem execute_one_status context st :
  (∃ st' artifacts status,
     execute context st = (st', Ok tt)
     ∧ (∃ items p,
          stream (user_input context) (context_id (task_for context)) = (items, None)
          ∧ last items = Some p)
     ∧ event_queue st' = event_queue st ++ task_events context ++ artifacts ++ [status]
     ∧ is_status status = true
     ∧ (artifacts = []
        ∨ ∃ a, artifacts = [a] ∧ is_artifact a = true
               ∧ status_state status = Some TaskState.completed))
  ∨ (∃ st' e,
       execute context st = (st', Raise e)
       ∧ event_queue st' = event_queue st ++ task_events context).
Proof.
  assert (Hcases : (_initialized st = true ∨ initialize_playwright = Ok tt)
                   ∨ (_initialized st = false ∧ ∃ e, initialize_playwright = Raise e)).
  { destruct (_initialized st); [left; left; reflexivity|].
    destruct initialize_playwright as [[]|e]; [left; right; reflexivity|].
    right. eauto. }
  destruct Hcases as [Hinit|[Hi [e He]]].
  - destruct (stream (user_input context) (context_id (task_for context)))
      as [items [e|]] eqn:Hs.
    + right. rewrite (execute_raised_run context items e st Hinit Hs).
      eexists _, _. split; reflexivity.
    + destruct (last items) as [p|] eqn:Hlast.
      * left. rewrite (execute_exhausted_run context items p st Hinit Hs Hlast).
        destruct (outcome_shape (task_for context) p) as (artifacts & status & Ho & H).
        eexists _, artifacts, status. split; [reflexivity|].
        split; [eauto|]. simpl. rewrite Ho. split; [reflexivity | exact H].
      * right. apply last_None in Hlast. subst items.
        rewrite (execute_initialised _ _ _ _ context st Hinit).
        rewrite (run_empty _ _ _ context _ Hs).
        eexists _, _. split; reflexivity.
  - right. rewrite (execute_init_raised _ _ _ _ context st e Hi He).
    eexists _, _. split; reflexivity.
Qed.

End PlaywrightMore.

(** ** More of [test_mcp_complete] *)

Section TestMcpCompleteMore.

Import PyStr TestMcpComplete.

Variable w : world.

Lemma scan_lines_skip_run pre rest :
  Forall (fun line => startswith "data: " line = false) pre ->
  scan_lines w (pre ++ rest) = scan_lines w rest.
Proof.
  intros H. induction H as [|line pre Hline _ IH]; [reflexivity|].
  rewrite <- app_comm_cons. cbn [scan_lines]. rewrite Hline. exact IH.
Qed.

(** X19.  The scan of a response reads only the lines that start with
    [data: ]: lines before the first such line change nothing, and a
    response without one yields no tools. *)
Theorem scan_lines_skips pre rest :
  Forall (fun line => startswith "data: " line = false) pre ->
  scan_lines w (pre ++ rest) = scan_lines w rest
  ∧ scan_lines w pre = Ok None.
Proof.
  intros H. split; [apply scan_lines_skip_run; exact H|].
  rewrite <- (app_nil_r pre). rewrite scan_lines_skip_run by exact H. reflexivity.
Qed.

(** X20.  The first [data: ] line whose payload does not decode ends the
    scan with the decoder's exception: the lines after it are not read,
    even if one of them carries the tools. *)
Theorem scan_lines_stops_at_bad_line pre line rest e :
  Forall (fun line => startswith "data: " line = false) pre ->
  startswith "data: " line = true ->
  json_loads w (drop 6 line) = Raise e ->
  scan_lines w (pre ++ line :: rest) = Raise e.
Proof.
  intros Hpre Hline Hj. rewrite scan_lines_skip_run by exact Hpre.
  cbn [scan_lines]. rewrite Hline, Hj. reflexivity.
Qed.

(** The response of the attempt that passes the test of the script, if
    one does: the attempts are made in the order of the names, and one
    is made only when those before it came back failing the test. *)
Fixpoint passing_attempt (names : list string) (session_id : string) : option response :=
  match names with
  | [] => None
  | header_name :: rest =>
      match tools_outcome w header_name session_id with
      | Ok r => if success r then Some r else passing_attempt rest session_id
      | Raise _ => None
      end
  end.

(** The tools that the scan of a response finds, if it has the event
    marker in it and the scan does not raise. *)
Definition tools_in (r : response) : option pyval :=
  if contains "event: message" (text r) then
    match scan_lines w (split_on "010"%char (text r)) with
    | Ok (Some tools) => Some tools
    | _ => None
    end
  else None.

(** The session id the script goes on with, if it does. *)
Definition session : option string :=
  match http_post w mcp_url json_headers initialize_body with
  | Ok response =>
      match session_id_of (headers response) with
      | Some session_id => if bool_decide (session_id = "") then None else Some session_id
      | None => None
      end
  | Raise _ => None
  end.

Definition tools_found : option pyval :=
  session_id ← session;
  r ← passing_attempt ["mcp-session-id"; "x-session-id"] session_id;
  tools_in r.

(** What the loop over the header names returns, or that it raises where
    an attempt or the scan raises. *)
Lemma try_headers_result names session_id sent :
  match snd (try_headers w names session_id sent) with
  | Ok v => v = default PNone (passing_attempt names session_id ≫= tools_in)
  | Raise _ => passing_attempt names session_id ≫= tools_in = None
  end.
Proof.
  revert sent. induction names as [|header_name rest IH]; intros sent; simpl.
  - reflexivity.
  - unfold Eff.bind at 1. unfold client_post, tools_outcome, success.
    destruct (http_post w mcp_url (<[header_name:=session_id]> json_headers)
                tools_list_body) as [r|e]; [|reflexivity].
    destruct ((status_code r =? 200) && negb (contains "error" (text r))).
    + simpl. unfold tools_in.
      destruct (contains "event: message" (text r)); [|reflexivity].
      unfold Eff.bind, Eff.lift.
      destruct (scan_lines w (split_on "010"%char (text r))) as [[tools|]|e];
        reflexivity.
    + apply IH.
Qed.

(** The tools the scan returns were iterated over, so they are not
    [None]. *)
Lemma scan_lines_not_none lines tools :
  scan_lines w lines = Ok (Some tools) -> tools ≠ PNone.
Proof.
  induction lines as [|line rest IH]; cbn [scan_lines]; [discriminate|].
  destruct (startswith "data: " line); [|exact IH].
  destruct (json_loads w (drop 6 line)) as [j|]; simpl; [|discriminate].
  destruct (Py.contains "result" j) as [has_result|]; simpl; [|discriminate].
  destruct (if has_result then _ else _) as [[|]|]; simpl; [| exact IH | discriminate].
  destruct (Py.getitem j "result") as [r|]; simpl; [|discriminate].
  destruct (Py.getitem r "tools") as [t|]; simpl; [|discriminate].
  destruct (Py.iter t) as [items|] eqn:Hiter; simpl; [|discriminate].
  destruct (print_tools items); simpl; [|discriminate].
  intros [= <-] ->. discriminate.
Qed.

(** X21.  [test_mcp_complete] never raises, and what it returns is
    decided as follows.  It returns the tools that the scan found in the
    body of the tools/list attempt that passed the test (status 200 and
    no [error] in the body), when the initialize request gave a session
    id that is not empty, one of the two attempts under that session id
    passed, the one under [x-session-id] being made only after the one
    under [mcp-session-id] came back failing, its body has
    [event: message] in it and the scan returned tools.  In every other
    case, an exception raised anywhere included, it returns [None].  The
    tools returned are never [None] themselves. *)
Theorem test_mcp_complete_returns_tools sent :
  snd (test_mcp_complete w sent) = Ok (default PNone tools_found)
  ∧ (∀ v, v ≠ PNone ->
       (snd (test_mcp_complete w sent) = Ok v
        ↔ ∃ response session_id r,
            http_post w mcp_url json_headers initialize_body = Ok response
            ∧ session_id_of (headers response) = Some session_id
            ∧ session_id ≠ ""
            ∧ passing_attempt ["mcp-session-id"; "x-session-id"] session_id = Some r
            ∧ contains "event: message" (text r) = true
            ∧ scan_lines w (split_on "010"%char (text r)) = Ok (Some v)))
  ∧ (∀ tools, tools_found = Some tools -> tools ≠ PNone).
Proof.
  assert (Hrun : snd (test_mcp_complete w sent) = Ok (default PNone tools_found)).
  { unfold test_mcp_complete, tools_found, session, Eff.try_except, Eff.bind, client_post.
    destruct (http_post w mcp_url json_headers initialize_body) as [response|e];
      [|reflexivity].
    destruct (session_id_of (headers response)) as [session_id|]; [|reflexivity].
    destruct (bool_decide (session_id = "")); [reflexivity|].
    pose proof (try_headers_result ["mcp-session-id"; "x-session-id"] session_id
                  (sent ++ [POST mcp_url json_headers initialize_body])) as H.
    match goal with
    | |- _ = Ok (default PNone ?t) =>
        change t with (passing_attempt ["mcp-session-id"; "x-session-id"] session_id
                       ≫= tools_in)
    end.
    set (p := passing_attempt ["mcp-session-id"; "x-session-id"] session_id) in *.
    destruct (try_headers w _ session_id _) as [sent' [v|e]];
      destruct p as [r|]; simpl in *; rewrite ?H; reflexivity. }
  assert (Hfound : ∀ v, tools_found = Some v
            ↔ ∃ response session_id r,
                http_post w mcp_url json_headers initialize_body = Ok response
                ∧ session_id_of (headers response) = Some session_id
                ∧ session_id ≠ ""
                ∧ passing_attempt ["mcp-session-id"; "x-session-id"] session_id = Some r
                ∧ contains "event: message" (text r) = true
                ∧ scan_lines w (split_on "010"%char (text r)) = Ok (Some v)).
  { intros v. unfold tools_found, session. split.
    - destruct (http_post w mcp_url json_headers initialize_body) as [response|e] eqn:Hi;
        [|discriminate].
      destruct (session_id_of (headers response)) as [session_id|] eqn:Hid;
        [|discriminate].
      case_bool_decide as Hs; [discriminate|]. cbn -[passing_attempt].
      destruct (passing_attempt ["mcp-session-id"; "x-session-id"] session_id)
        as [r|] eqn:Hp; [|discriminate]. cbn -[passing_attempt].
      unfold tools_in. destruct (contains "event: message" (text r)) eqn:Hev;
        [|discriminate].
      destruct (scan_lines w _) as [[tools|]|] eqn:Hscan; try discriminate.
      intros [= <-]. exists response, session_id, r.
      repeat split; first [reflexivity | assumption].
    - intros (response & session_id & r & -> & -> & Hs & Hp & Hev & Hscan).
      rewrite bool_decide_eq_false_2 by exact Hs. cbn -[passing_attempt].
      rewrite Hp. cbn -[passing_attempt].
      unfold tools_in. rewrite Hev, Hscan. reflexivity. }
  split; [exact Hrun|]. split.
  - intros v Hv. rewrite Hrun, <- Hfound. split.
    + intros [= <-]. destruct tools_found; [reflexivity | exfalso; apply Hv; reflexivity].
    + intros ->. reflexivity.
  - intros tools Ht. apply Hfound in Ht as (_ & _ & r & _ & _ & _ & _ & _ & Hscan).
    exact (scan_lines_not_none _ _ Hscan).
Qed.

End TestMcpCompleteMore.

(** ** The scripts *)

Section ScriptsFacts.

Import PyStr CosmosQueryAgent Dispatch Scripts.

Variable w : world.

Lemma print_run line c : print line c = (Console (sent c) (printed c ++ [line]), Ok tt).
Proof. reflexivity. Qed.

Lemma probe_run endpoints c :
  ∃ lines,
    probe w endpoints c
    = (Console (sent c ++ map (fun endpoint => GET ("http://localhost:10003" +:+ endpoint))
                            endpoints)
         (printed c ++ lines), Ok tt)
    ∧ length lines = length endpoints.
Proof.
  revert c. induction endpoints as [|endpoint rest IH]; intros c; simpl.
  - exists []. rewrite !app_nil_r. destruct c. split; reflexivity.
  - unfold Eff.bind at 1. unfold Eff.try_except, Eff.bind, net, client_get. simpl.
    destruct (http_get w ("http://localhost:10003" +:+ endpoint)) as [r|e]; simpl.
    + match goal with
      | |- context [probe w rest ?c'] => destruct (IH c') as (lines & Hrun & Hlen)
      end.
      rewrite Hrun. simpl. eexists (_ :: lines).
      rewrite <- !app_assoc. split; [reflexivity|]. simpl. rewrite Hlen. reflexivity.
    + match goal with
      | |- context [probe w rest ?c'] => destruct (IH c') as (lines & Hrun & Hlen)
      end.
      rewrite Hrun. simpl. eexists (_ :: lines).
      rewrite <- !app_assoc. split; [reflexivity|]. simpl. rewrite Hlen. reflexivity.
Qed.

(** X22.  [test_endpoints] asks for each of its five endpoints once, in
    the order listed, whatever the earlier ones answered or raised; it
    prints its heading and one line for each endpoint, and never raises. *)
Theorem test_endpoints_probes_all c :
  ∃ lines,
    test_endpoints w c
    = (Console (sent c ++ [GET "http://localhost:10003/";
                           GET "http://localhost:10003/agent_card";
                           GET "http://localhost:10003/card";
                           GET "http://localhost:10003/health";
                           GET "http://localhost:10003/info"])
         (printed c ++ "🔍 Testing TimeAgent endpoints..." :: lines), Ok tt)
    ∧ length lines = 5%nat.
Proof.
  unfold test_endpoints.
  erewrite bind_ok by apply print_run.
  destruct (probe_run endpoints
              (Console (sent c) (printed c ++ ["🔍 Testing TimeAgent endpoints..."])))
    as (lines & Hrun & Hlen).
  exists lines. rewrite Hrun. simpl. rewrite <- app_assoc. split; [reflexivity | exact Hlen].
Qed.

Ltac decide_tests :=
  repeat match goal with
         | |- context [if ?c then _ else _] =>
             let v := eval vm_compute in c in
             first [constr_eq v true | constr_eq v false];
             change c with v; cbv iota
         end.

#[local] Arguments process_query : simpl never.
#[local] Arguments _call_mcp_tool : simpl never.
#[local] Arguments initialize : simpl never.

Variable getenv : string -> option string.

Let agent : CosmosQueryAgent.t := __init__ getenv.

Definition sql_of_test : string :=
  "SELECT * FROM c WHERE c.agent_name = 'TimeAgent' ORDER BY c._ts DESC".

Lemma query_containers sent :
  process_query w agent "Show me all containers in the database" sent
  = (sent ++ [tool_request w agent "list_collections" ∅],
     Ok (labelled w "Available containers in the database:"
           (tool_value w agent "list_collections" ∅))).
Proof.
  unfold process_query. cbv zeta. decide_tests.
  unfold list_containers. rewrite labelled_call. reflexivity.
Qed.

Lemma query_time_agent sent :
  process_query w agent "Show me time_agent entries" sent = (sent, Ok PNone).
Proof. apply list_group_without_container; reflexivity. Qed.

Lemma query_count sent :
  process_query w agent "How many documents are in the actions container?" sent
  = (sent ++ [tool_request w agent "count_documents"
                {[ "container_name" := PStr "actions" ]}],
     Ok (labelled w "Document count:"
           (tool_value w agent "count_documents"
              {[ "container_name" := PStr "actions" ]}))).
Proof.
  unfold process_query. cbv zeta. decide_tests.
  unfold count_documents. rewrite labelled_call. reflexivity.
Qed.

Lemma query_describe sent :
  process_query w agent "Describe the actions container schema" sent
  = (sent ++ [tool_request w agent "describe_container"
                {[ "container_name" := PStr "actions" ]}],
     Ok (labelled w "Container schema information:"
           (tool_value w agent "describe_container"
              {[ "container_name" := PStr "actions" ]}))).
Proof.
  unfold process_query. cbv zeta. decide_tests.
  unfold describe_container. rewrite labelled_call. reflexivity.
Qed.

Lemma query_sql sent :
  process_query w agent sql_of_test sent
  = (sent ++ [tool_request w agent "query_cosmos" {[ "query" := PStr sql_of_test ]}],
     Ok (labelled w "Query results:"
           (tool_value w agent "query_cosmos" {[ "query" := PStr sql_of_test ]}))).
Proof.
  unfold process_query. cbv zeta. decide_tests.
  unfold query_cosmos_db. rewrite labelled_call. reflexivity.
Qed.

(** X23.  Whatever the peer does, [test_cosmos_query_agent] runs to its
    end without raising and sends the health probe and then four tool
    calls: [list_collections], [count_documents] and [describe_container]
    for [actions], and [query_cosmos] with the SQL text.  Its second test,
    [Show me time_agent entries], sends nothing and prints the result
    [None].  Fourteen lines are printed. *)
Theorem test_cosmos_query_agent_requests c :
  ∃ lines,
    test_cosmos_query_agent w getenv c
    = (Console
         (sent c ++ [GET (health_url agent);
                     tool_request w agent "list_collections" ∅;
                     tool_request w agent "count_documents"
                       {[ "container_name" := PStr "actions" ]};
                     tool_request w agent "describe_container"
                       {[ "container_name" := PStr "actions" ]};
                     tool_request w agent "query_cosmos"
                       {[ "query" := PStr sql_of_test ]}])
         (printed c ++ lines), Ok tt)
    ∧ length lines = 14%nat
    ∧ lines !! 5%nat = Some (nl +:+ "3. Testing: Query time_agent data")
    ∧ lines !! 6%nat = Some ("Result: " +:+ py_str w PNone).
Proof.
  unfold test_cosmos_query_agent, print_result, Eff.bind, print, Eff.modify, net.
  cbv zeta. fold agent. simpl.
  rewrite initialize_run. simpl.
  rewrite query_containers. simpl.
  rewrite ?query_time_agent. simpl.
  rewrite query_count. simpl.
  rewrite query_describe. simpl.
  change "SELECT * FROM c WHERE c.agent_name = 'TimeAgent' ORDER BY c._ts DESC"
    with sql_of_test.
  rewrite query_sql. simpl.
  eexists. rewrite <- !app_assoc. simpl. split; [reflexivity|].
  repeat split.
Qed.

(** X24.  Whatever the peer does, [test_simple_tools] runs to its end
    without raising and sends the health probe and then three tool calls:
    [list_collections] and [count_documents] with no argument, and
    [query_cosmos] with its SQL text.  Nine lines are printed. *)
Theorem test_simple_tools_requests c :
  ∃ lines,
    test_simple_tools w getenv c
    = (Console
         (sent c ++ [GET (health_url agent);
                     tool_request w agent "list_collections" ∅;
                     tool_request w agent "count_documents" ∅;
                     tool_request w agent "query_cosmos"
                       {[ "query" := PStr "SELECT * FROM c OFFSET 0 LIMIT 3" ]}])
         (printed c ++ lines), Ok tt)
    ∧ length lines = 9%nat.
Proof.
  unfold test_simple_tools, print_result, Eff.bind, print, Eff.modify, net.
  cbv zeta. fold agent. simpl.
  rewrite initialize_run. simpl.
  rewrite call_mcp_tool_run. simpl.
  rewrite call_mcp_tool_run. simpl.
  rewrite call_mcp_tool_run. simpl.
  eexists. rewrite <- !app_assoc. simpl. split; reflexivity.
Qed.

End ScriptsFacts.

Section MoreInstances.

Import PyStr CosmosQueryAgent CosmosQueryAgentExecutor Dispatch Fixture TestMcpComplete.

Definition tools_value : pyval :=
  PList [PDict {[ "name" := PStr "query_cosmos" ]}].

(** A peer that hands out the session id [s1] and lists one tool. *)
Definition tools_peer : world :=
  {| http_get := fun _ => Ok (Response 200 "" ∅);
     http_post := fun _ h _ =>
       match h !! "mcp-session-id" with
       | Some _ => Ok (Response 200 ("event: message" +:+ nl +:+ "data: T") ∅)
       | None => Ok (Response 200 "" {[ "mcp-session-id" := "s1" ]})
       end;
     now_isoformat := "2025-01-01T00:00:00";
     int_max_str_digits := 4300;
     repr := show;
     json_loads := fun s =>
       if bool_decide (s = "T")
       then Ok (PDict {[ "result" := PDict {[ "tools" := tools_value ]} ]})
       else Raise (Exn "JSONDecodeError" "Expecting value: line 1 column 1 (char 0)") |}.

Lemma scan_lines_skips_witness :
  scan_lines tools_peer (["event: message"; ""] ++ ["data: T"])
  = scan_lines tools_peer ["data: T"]
  ∧ scan_lines tools_peer ["event: message"; ""] = Ok None.
Proof.
  apply (scan_lines_skips tools_peer ["event: message"; ""] ["data: T"]).
  repeat constructor.
Defined.

Lemma scan_lines_stops_at_bad_line_witness :
  scan_lines tools_peer (["event: message"] ++ "data: oops" :: ["data: T"])
  = Raise (Exn "JSONDecodeError" "Expecting value: line 1 column 1 (char 0)").
Proof.
  apply (scan_lines_stops_at_bad_line tools_peer ["event: message"] "data: oops" ["data: T"]).
  - repeat constructor.
  - reflexivity.
  - reflexivity.
Defined.

Example tools_returned : snd (test_mcp_complete tools_peer []) = Ok tools_value.
Proof. reflexivity. Qed.

End MoreInstances.

Section PlaywrightMoreInstances.

Import SemanticKernelMCPAgentExecutor.

Definition no_browser : exn := Exn "RuntimeError" "no browser".
Definition lost : exn := Exn "ConnectionError" "stream lost".

Lemma execute_initialisation_failed_witness :
  execute (Raise no_browser) (fun _ _ => ([finished], None)) (fun _ => demo_task)
    demo_refusal demo_context (Store false [])
  = (Store false ([] ++ task_events (fun _ => demo_task) demo_context),
     Raise (refused demo_refusal (task_for (fun _ => demo_task) demo_context)
              ("Failed to initialize Playwright agent: " +:+ exn_str no_browser))).
Proof.
  apply (execute_initialisation_failed (Raise no_browser) (fun _ _ => ([finished], None))
           (fun _ => demo_task) demo_refusal demo_context (Store false []) no_browser);
    reflexivity.
Defined.

Lemma execute_stream_raised_witness :
  execute (Ok tt) (fun _ _ => ([asking; finished], Some lost)) (fun _ => demo_task)
    demo_refusal demo_context (Store false [])
  = (Store true ([] ++ task_events (fun _ => demo_task) demo_context),
     Raise (refused demo_refusal (task_for (fun _ => demo_task) demo_context)
              ("Playwright agent execution failed: " +:+ exn_str lost))).
Proof.
  apply (execute_stream_raised (Ok tt) (fun _ _ => ([asking; finished], Some lost))
           (fun _ => demo_task) demo_refusal demo_context [asking; finished] lost
           (Store false [])).
  - right. reflexivity.
  - reflexivity.
Defined.

Lemma execute_reports_last_partial_witness :
  (∀ locals st1, fst (async_for [asking; finished] None locals st1) = st1)
  ∧ execute (Ok tt) (fun _ _ => ([asking; finished], None)) (fun _ => demo_task)
      demo_refusal demo_context (Store false [])
    = (Store true
         ([] ++ task_events (fun _ => demo_task) demo_context
          ++ outcome_events (task_for (fun _ => demo_task) demo_context) finished),
       Ok tt).
Proof.
  apply (execute_reports_last_partial (Ok tt) (fun _ _ => ([asking; finished], None))
           (fun _ => demo_task) demo_refusal demo_context [asking; finished] finished
           (Store false [])).
  - right. reflexivity.
  - reflexivity.
  - reflexivity.
Defined.

(** The events of that run, written out. *)
Example finished_run :
  event_queue
    (fst (execute (Ok tt) (fun _ _ => ([asking; finished], None)) (fun _ => demo_task)
            demo_refusal demo_context (Store false [])))
  = [NewTask demo_task;
     TaskArtifactUpdateEvent false "ctx-1" "task-1" true
       {| name := "current_result";
          description := "Result of request to agent.";
          artifact_text := "Done." |};
     TaskStatusUpdateEvent {| state := TaskState.completed; message := None |}
       true "ctx-1" "task-1"].
Proof. reflexivity. Qed.

End PlaywrightMoreInstances.
